(** * Name Operation Encoder of ensjs: transferName, deleteSubname, registerName

    A shallow embedding of the [makeFunctionData] encoders of

      - transferName  (packages/ensjs/src/functions/wallet/transferName.ts)
      - deleteSubname (src/unnamed/part_000)
      - registerName  (the module that follows the tests in
                       packages/ensjs/src/functions/read/getAddr.test.ts)

    JavaScript strings are modelled as Rocq [string]s holding their UTF-8
    bytes, [bigint]s and [number]s as [Z], exceptions as the [Err] case of
    an error monad, and optional parameters ([reclaim?: boolean]) as
    [option bool] read through JavaScript truthiness.  The hash primitive
    keccak256 is a parameter of the development; a reference
    implementation ([Keccak.keccak256]) instantiates it in the examples. *)

From Stdlib Require Import String Ascii List ZArith NArith Bool Lia.
From Stdlib Require Import Init.Byte.
Import ListNotations.

Local Open Scope string_scope.
Local Open Scope list_scope.

(* ===================================================================== *)
(** ** Errors and the exception monad *)
(* ===================================================================== *)

(** The name types the sources and the specification distinguish:
    ['eth-tld'], ['eth-2ld'], ['eth-subname'], ['other-subname'] and the
    unsupported form. *)
Inductive NameType : Type :=
| eth_tld
| eth_2ld
| eth_subname
| other_subname
| unsupported.

Definition NameType_eqb (a b : NameType) : bool :=
  match a, b with
  | eth_tld, eth_tld
  | eth_2ld, eth_2ld
  | eth_subname, eth_subname
  | other_subname, other_subname
  | unsupported, unsupported => true
  | _, _ => false
  end.

(** errors/general.ts and the errors of the helper modules, with the
    fields the throwing sites fill in. [JsError] is a plain
    [new Error(message)]. *)
Inductive EnsError : Type :=
| AdditionalParameterSpecifiedError
    (parameter : string) (allowedParameters : list string) (details : string)
| UnsupportedNameTypeError
    (nameType : NameType) (supportedNameTypes : list NameType) (details : string)
| InvalidContractTypeError
    (contractType : string) (supportedContractTypes : list string)
| MalformedNameError (name : string)
| LabelTooLongError (label : string)
| UnknownContractError (contract : string)
| SyntaxError (input : string)
| JsError (message : string).

(** The class name of an error, as [error.name] reports it. *)
Definition errorName (e : EnsError) : string :=
  match e with
  | AdditionalParameterSpecifiedError _ _ _ => "AdditionalParameterSpecifiedError"
  | UnsupportedNameTypeError _ _ _ => "UnsupportedNameTypeError"
  | InvalidContractTypeError _ _ => "InvalidContractTypeError"
  | MalformedNameError _ => "MalformedNameError"
  | LabelTooLongError _ => "LabelTooLongError"
  | UnknownContractError _ => "UnknownContractError"
  | SyntaxError _ => "SyntaxError"
  | JsError _ => "Error"
  end.

(** A computation either returns a value or throws. *)
Inductive result (A : Type) : Type :=
| Ok (a : A)
| Err (e : EnsError).

Arguments Ok {A} a.
Arguments Err {A} e.

Definition ret {A} (a : A) : result A := Ok a.
Definition throw {A} (e : EnsError) : result A := Err e.

Definition bind {A B} (m : result A) (k : A -> result B) : result B :=
  match m with
  | Ok a => k a
  | Err e => Err e
  end.

Declare Scope js_scope.
Delimit Scope js_scope with js.
Notation "x <- m ;; k" := (bind m (fun x => k))
  (at level 61, m at next level, right associativity) : js_scope.
Notation "m ;;; k" := (bind m (fun _ => k))
  (at level 61, right associativity) : js_scope.
Local Open Scope js_scope.

(** JavaScript truthiness of an optional boolean: [undefined] and [false]
    are falsy. *)
Definition truthy (b : option bool) : bool :=
  match b with
  | Some true => true
  | _ => false
  end.

(* ===================================================================== *)
(** ** Strings, bytes and hex *)
(* ===================================================================== *)

Definition Hex : Type := string.
Definition Address : Type := string.

(** viem's [stringToBytes]: the UTF-8 bytes of a string. *)
Definition stringToBytes (s : string) : list byte := list_byte_of_string s.

Definition dot : ascii := "."%char.

(** [String.prototype.split] with a one-character separator: the result
    always has at least one element, and [split sep ""] is [[""]]. *)
Fixpoint split (sep : ascii) (s : string) : list string :=
  match s with
  | EmptyString => [EmptyString]
  | String c s' =>
      if Ascii.eqb c sep then EmptyString :: split sep s'
      else match split sep s' with
           | l :: ls => String c l :: ls
           | [] => [String c EmptyString]
           end
  end.

(** [Array.prototype.join] with a one-character separator. *)
Fixpoint join (sep : ascii) (ls : list string) : string :=
  match ls with
  | [] => EmptyString
  | [l] => l
  | l :: rest => l ++ String sep (join sep rest)
  end.

(** The lower-case hexadecimal digit of a value below 16. *)
Definition hexDigit (n : N) : ascii :=
  match n with
  | 0%N => "0" | 1%N => "1" | 2%N => "2" | 3%N => "3"
  | 4%N => "4" | 5%N => "5" | 6%N => "6" | 7%N => "7"
  | 8%N => "8" | 9%N => "9" | 10%N => "a" | 11%N => "b"
  | 12%N => "c" | 13%N => "d" | 14%N => "e" | _ => "f"
  end%char.

Definition byteToHex (b : byte) (rest : string) : string :=
  let n := Byte.to_N b in
  String (hexDigit (n / 16)) (String (hexDigit (n mod 16)) rest).

(** viem's [bytesToHex]: ["0x"] followed by two digits per byte. *)
Definition bytesToHex (bs : list byte) : Hex :=
  String "0" (String "x" (fold_right byteToHex EmptyString bs)).

(** The value of a hexadecimal digit, either case. *)
Definition hexValue (c : ascii) : option Z :=
  let n := N_of_ascii c in
  if ((48 <=? n) && (n <=? 57))%N then Some (Z.of_N (n - 48))
  else if ((97 <=? n) && (n <=? 102))%N then Some (Z.of_N (n - 87))
  else if ((65 <=? n) && (n <=? 70))%N then Some (Z.of_N (n - 55))
  else None.

Fixpoint parseHexDigits (acc : Z) (s : string) : option Z :=
  match s with
  | EmptyString => Some acc
  | String c s' =>
      match hexValue c with
      | Some d => parseHexDigits (16 * acc + d) s'
      | None => None
      end
  end.

(** [BigInt(hex)] on a [Hex] string: the hexadecimal-literal case of
    StringToBigInt.  A ["0x"] prefix with no digit after it, or a
    character that is no hexadecimal digit, is a [SyntaxError].  (The call
    sites pass [Hex] strings only, so the decimal, octal and binary forms
    are not needed.) *)
Definition BigInt (h : Hex) : result Z :=
  match h with
  | String "0" (String "x" (String c r)) =>
      match parseHexDigits 0 (String c r) with
      | Some z => Ok z
      | None => Err (SyntaxError h)
      end
  | _ => Err (SyntaxError h)
  end.

(** The unsigned big-endian integer a byte sequence denotes. *)
Definition bytesToZ (bs : list byte) : Z :=
  fold_left (fun acc b => 256 * acc + Z.of_N (Byte.to_N b))%Z bs 0%Z.

(* ===================================================================== *)
(** ** Keccak-256, the reference instance of the hash primitive *)
(* ===================================================================== *)

(** The hash primitive is external to the encoder (viem takes it from
    a hashing library).  The theorems below hold for every function
    [keccak256] that returns 32 bytes; this module gives the standard
    Keccak-256 (rate 136 bytes, padding [0x01 .. 0x80], 24 rounds on 25
    lanes of 64 bits) so that examples can be evaluated on real names. *)
Module Keccak.

Local Open Scope N_scope.

Definition mask64 : N := 0xFFFFFFFFFFFFFFFF.

Definition rotl64 (x n : N) : N :=
  N.land (N.lor (N.shiftl x n) (N.shiftr x (64 - n))) mask64.

Definition not64 (x : N) : N := N.lxor x mask64.

(** A state is the list of its 25 lanes, lane [(x, y)] at index [x + 5 y]. *)
Definition lane (st : list N) (x y : nat) : N :=
  nth ((x mod 5) + 5 * (y mod 5))%nat st 0.

Definition state_of (f : nat -> nat -> N) : list N :=
  map (fun i => f (i mod 5)%nat (i / 5)%nat) (seq 0 25).

Definition rotationOffsets : list N :=
  [ 0;  1; 62; 28; 27;
   36; 44;  6; 55; 20;
    3; 10; 43; 25; 39;
   41; 45; 15; 21;  8;
   18;  2; 61; 56; 14].

Definition roundConstants : list N :=
  [0x0000000000000001; 0x0000000000008082; 0x800000000000808A;
   0x8000000080008000; 0x000000000000808B; 0x0000000080000001;
   0x8000000080008081; 0x8000000000008009; 0x000000000000008A;
   0x0000000000000088; 0x0000000080008009; 0x000000008000000A;
   0x000000008000808B; 0x800000000000008B; 0x8000000000008089;
   0x8000000000008003; 0x8000000000008002; 0x8000000000000080;
   0x000000000000800A; 0x800000008000000A; 0x8000000080008081;
   0x8000000000008080; 0x0000000080000001; 0x8000000080008008].

Definition theta (st : list N) : list N :=
  let c := fun x =>
    N.lxor (lane st x 0) (N.lxor (lane st x 1) (N.lxor (lane st x 2)
      (N.lxor (lane st x 3) (lane st x 4)))) in
  let cs := map c (seq 0 5) in
  let d := fun x =>
    N.lxor (nth ((x + 4) mod 5)%nat cs 0) (rotl64 (nth ((x + 1) mod 5)%nat cs 0) 1) in
  let ds := map d (seq 0 5) in
  state_of (fun x y => N.lxor (lane st x y) (nth x ds 0)).

(** rho and pi together: lane [(x, y)] moves to [(y, 2x + 3y)], rotated. *)
Definition rhoPi (st : list N) : list N :=
  state_of (fun x y =>
    let sx := ((x + 3 * y) mod 5)%nat in
    rotl64 (lane st sx x) (nth (sx + 5 * x)%nat rotationOffsets 0)).

Definition chi (st : list N) : list N :=
  state_of (fun x y =>
    N.lxor (lane st x y)
           (N.land (not64 (lane st (x + 1) y)) (lane st (x + 2) y))).

Definition iota (rc : N) (st : list N) : list N :=
  match st with
  | l :: rest => N.lxor l rc :: rest
  | [] => []
  end.

Definition round (st : list N) (rc : N) : list N :=
  iota rc (chi (rhoPi (theta st))).

Definition keccakF (st : list N) : list N :=
  fold_left round roundConstants st.

(** Little-endian lanes of a block of bytes. *)
Fixpoint lanesOf (n : nat) (bs : list byte) : list N :=
  match n with
  | O => []
  | S n' =>
      fold_right (fun b acc => Byte.to_N b + 256 * acc) 0 (firstn 8 bs)
        :: lanesOf n' (skipn 8 bs)
  end.

Definition xorBlock (st : list N) (block : list byte) : list N :=
  let ls := lanesOf 17 block in
  map (fun i => N.lxor (nth i st 0) (nth i ls 0)) (seq 0 25).

Definition rate : nat := 136.

(** Multi-rate padding with the Keccak domain byte [0x01]. *)
Definition pad (msg : list byte) : list byte :=
  let q := (rate - (length msg mod rate))%nat in
  match q with
  | 1%nat => msg ++ [x81]
  | _ => msg ++ [x01] ++ repeat x00 (q - 2) ++ [x80]
  end.

Fixpoint absorb (fuel : nat) (st : list N) (bs : list byte) : list N :=
  match fuel, bs with
  | S fuel', _ :: _ =>
      absorb fuel' (keccakF (xorBlock st (firstn rate bs))) (skipn rate bs)
  | _, _ => st
  end.

Definition byteOfN (n : N) : byte :=
  match Byte.of_N (n mod 256) with
  | Some b => b
  | None => x00
  end.

(** The first 32 bytes of the state, lanes in little-endian order. *)
Definition squeeze (st : list N) : list byte :=
  map (fun i => byteOfN (N.shiftr (nth (i / 8) st 0) (8 * N.of_nat (i mod 8))))
      (seq 0 32).

Definition keccak256 (msg : list byte) : list byte :=
  let padded := pad msg in
  squeeze (absorb (length padded) (repeat 0 25) padded).

End Keccak.

(* ===================================================================== *)
(** ** Name classification and identifier derivation *)
(* ===================================================================== *)

(** The protocol's primary suffix, the reserved top-level label. *)
Definition primarySuffix : string := "eth".

(** Modelled from the spec: utils/getNameType.ts is not among the
    sources.  The classifier splits the name into labels and fails with
    [MalformedNameError] if any label is empty or the name is empty; the
    final label equal to the primary suffix with exactly two labels is
    ['eth-2ld'], one label equal to the primary suffix is the top-level
    name, the primary suffix with more than two labels is
    ['eth-subname'], a different final label with more than one label is
    ['other-subname'], and a single foreign label is unsupported. *)
Definition getNameType (name : string) : result NameType :=
  let labels := split dot name in
  if existsb (String.eqb EmptyString) labels then
    throw (MalformedNameError name)
  else
    let isDotEth := String.eqb (last labels EmptyString) primarySuffix in
    let n := length labels in
    if isDotEth && (n =? 2)%nat then ret eth_2ld
    else if isDotEth && (n =? 1)%nat then ret eth_tld
    else if isDotEth && (2 <? n)%nat then ret eth_subname
    else if negb isDotEth && (1 <? n)%nat then ret other_subname
    else ret unsupported.

(** [labels[0]] of a split name ([split] never returns the empty array,
    so the default is never used). *)
Definition firstLabel (name : string) : string :=
  nth 0 (split dot name) EmptyString.

(** The name left when the first label is removed:
    [labels.slice(1).join('.')]. *)
Definition parentName (name : string) : string :=
  join dot (tl (split dot name)).

(** The record [makeLabelNodeAndParent] returns. *)
Record LabelNodeAndParent : Type := {
  label : string;
  labelhashId : Hex;
  parentNode : Hex
}.

Definition zeroHash : list byte := repeat x00 32.

Section Identifiers.

(** The hash primitive: [keccak(bytes) -> 256-bit digest]. *)
Variable keccak256 : list byte -> list byte.

(** Modelled from the spec: viem's [labelhash] is outside the sources.
    LabelHash(label) = keccak(label-bytes), a 256-bit digest, here before
    its rendering as a [Hex] string. *)
Definition labelhashBytes (label : string) : list byte :=
  keccak256 (stringToBytes label).

Definition labelhash (label : string) : Hex :=
  bytesToHex (labelhashBytes label).

(** Modelled from the spec: utils/normalise.ts ([namehash]) is not among
    the sources.  NodeHash(root) = 32 zero bytes and
    NodeHash(label.rest) = keccak(NodeHash(rest) ++ keccak(label-bytes));
    the name is taken as already normalised. *)
Fixpoint namehashLabels (labels : list string) : list byte :=
  match labels with
  | [] => zeroHash
  | l :: rest => keccak256 (namehashLabels rest ++ labelhashBytes l)
  end.

Definition namehashBytes (name : string) : list byte :=
  if String.eqb name EmptyString then zeroHash
  else namehashLabels (split dot name).

Definition namehash (name : string) : Hex :=
  bytesToHex (namehashBytes name).

(** Modelled from the spec: utils/makeLabelNodeAndParent.ts is not among
    the sources.  It splits off the first label and computes the parent's
    node hash from the remaining labels, failing with
    [MalformedNameError] if the name has fewer than two labels (no parent
    exists). *)
Definition makeLabelNodeAndParent (name : string) : result LabelNodeAndParent :=
  match split dot name with
  | l :: (_ :: _) as rest =>
      ret {| label := l;
             labelhashId := labelhash l;
             parentNode := namehash (join dot rest) |}
  | _ => throw (MalformedNameError name)
  end.

End Identifiers.

(** Modelled from the spec: utils/wrapper.ts is not among the sources.
    The check fails with [LabelTooLongError] when the label's byte
    length exceeds the wrapping contract's fixed maximum of 255 bytes. *)
Definition wrappedLabelLengthCheck (l : string) : result unit :=
  if (255 <? length (stringToBytes l))%nat then throw (LabelTooLongError l)
  else ret tt.

(* ===================================================================== *)
(** ** Clients, contract addresses and call payloads *)
(* ===================================================================== *)

Record Account : Type := { address : Address }.

(** A chain with its table of deployed contracts, keyed by contract
    identifier. *)
Record ChainWithEns : Type := { contracts : string -> option Address }.

(** [WalletWithEns<Transport, TChain, TAccount>]: the account type is a
    parameter, as in the sources ([Account] or [Account | undefined]). *)
Record WalletWithEns (TAccount : Type) : Type := {
  account : TAccount;
  chain : ChainWithEns
}.

Arguments account {TAccount} w.
Arguments chain {TAccount} w.

(** Modelled from the spec: contracts/getChainContractAddress.ts is not
    among the sources.  The address of a contract variant comes from the
    address lookup keyed by the contract identifier, and the lookup fails
    with [UnknownContractError] when it has no entry. *)
Definition getChainContractAddress {TAccount : Type}
    (client : WalletWithEns TAccount) (contract : string) : result Address :=
  match contracts (chain client) contract with
  | Some a => ret a
  | None => throw (UnknownContractError contract)
  end.

(** Modelled from the spec: utils/consts.ts is not among the sources;
    [EMPTY_ADDRESS] is the zero address. *)
Definition EMPTY_ADDRESS : Address :=
  "0x0000000000000000000000000000000000000000".

(** The ABI fragments the encoders import from contracts/*.ts, by the
    names they are imported under. *)
Inductive AbiSnippet : Type :=
| reclaimSnippet
| erc1155SafeTransferFromSnippet
| erc721SafeTransferFromSnippet
| nameWrapperSetSubnodeOwnerSnippet
| registrySetSubnodeOwnerSnippet
| setOwnerSnippet
| nameWrapperSetSubnodeRecordSnippet
| setRecordSnippet
| registrySetRecordSnippet
| registrySetSubnodeRecordSnippet
| registerSnippet.

(** A JavaScript value passed as a call argument: a string (a [Hex]
    hash, an [Address], a raw label), a [bigint] or a [number]. *)
Inductive AbiArg : Type :=
| AStr (s : string)
| ABigInt (z : Z)
| ANum (z : Z).

Record EncodeFunctionDataParameters : Type := {
  abi : AbiSnippet;
  functionName : string;
  args : list AbiArg
}.

(** viem's [encodeFunctionData] is kept symbolic: the call data is the
    encoding of the given function call. *)
Inductive CallData : Type :=
| encodeFunctionData (p : EncodeFunctionDataParameters).

(** [SimpleTransactionRequest]: the destination and the call data. *)
Record SimpleTransactionRequest : Type := {
  to : Address;
  data : CallData
}.

(* ===================================================================== *)
(** ** transferName.ts *)
(* ===================================================================== *)

Module transferName.

Record TransferNameDataParameters : Type := {
  name : string;
  newOwnerAddress : Address;
  contract : string;
  reclaim : option bool;
  asParent : option bool
}.

Section WithKeccak.

Variable keccak256 : list byte -> list byte.

Definition makeFunctionData (wallet : WalletWithEns Account)
    (p : TransferNameDataParameters) : result SimpleTransactionRequest :=
  let name := name p in
  let newOwnerAddress := newOwnerAddress p in
  let contract := contract p in
  let reclaim := reclaim p in
  let asParent := asParent p in
  if truthy reclaim && negb (contract =? "registrar") then
    throw (AdditionalParameterSpecifiedError
             "reclaim" ["name"; "newOwnerAddress"; "contract"]
             "Can't reclaim a name from any contract other than the registrar")
  else if contract =? "registry" then
    registryAddress <- getChainContractAddress wallet "ensRegistry" ;;
    if truthy asParent then
      r <- makeLabelNodeAndParent keccak256 name ;;
      ret {| to := registryAddress;
             data := encodeFunctionData
               {| abi := registrySetSubnodeOwnerSnippet;
                  functionName := "setSubnodeOwner";
                  args := [AStr (parentNode r); AStr (labelhashId r);
                           AStr newOwnerAddress] |} |}
    else
      ret {| to := registryAddress;
             data := encodeFunctionData
               {| abi := setOwnerSnippet;
                  functionName := "setOwner";
                  args := [AStr (namehash keccak256 name);
                           AStr newOwnerAddress] |} |}
  else if contract =? "registrar" then
    if truthy asParent then
      throw (AdditionalParameterSpecifiedError
               "asParent" ["name"; "newOwnerAddress"; "contract"; "reclaim"]
               "Can't transfer a name as the parent owner on the registrar")
    else
      nameType <- getNameType name ;;
      if negb (NameType_eqb nameType eth_2ld) then
        throw (UnsupportedNameTypeError
                 nameType [eth_2ld]
                 "Only eth-2ld names can be transferred on the registrar contract")
      else
        let labels := split dot name in
        tokenId <- BigInt (labelhash keccak256 (nth 0 labels EmptyString)) ;;
        registrarAddress <-
          getChainContractAddress wallet "ensBaseRegistrarImplementation" ;;
        ret {| to := registrarAddress;
               data :=
                 if truthy reclaim then
                   encodeFunctionData
                     {| abi := reclaimSnippet;
                        functionName := "reclaim";
                        args := [ABigInt tokenId; AStr newOwnerAddress] |}
                 else
                   encodeFunctionData
                     {| abi := erc721SafeTransferFromSnippet;
                        functionName := "safeTransferFrom";
                        args := [AStr (address (account wallet));
                                 AStr newOwnerAddress; ABigInt tokenId] |} |}
  else if contract =? "nameWrapper" then
    nameWrapperAddress <- getChainContractAddress wallet "ensNameWrapper" ;;
    if truthy asParent then
      r <- makeLabelNodeAndParent keccak256 name ;;
      ret {| to := nameWrapperAddress;
             data := encodeFunctionData
               {| abi := nameWrapperSetSubnodeOwnerSnippet;
                  functionName := "setSubnodeOwner";
                  args := [AStr (parentNode r); AStr (label r);
                           AStr newOwnerAddress; ANum 0; ABigInt 0] |} |}
    else
      unitId <- BigInt (namehash keccak256 name) ;;
      ret {| to := nameWrapperAddress;
             data := encodeFunctionData
               {| abi := erc1155SafeTransferFromSnippet;
                  functionName := "safeTransferFrom";
                  args := [AStr (address (account wallet));
                           AStr newOwnerAddress;
                           ABigInt unitId; ABigInt 1; AStr "0x"] |} |}
  else
    throw (InvalidContractTypeError
             contract ["registry"; "registrar"; "nameWrapper"]).

End WithKeccak.

End transferName.

(* ===================================================================== *)
(** ** deleteSubname.ts *)
(* ===================================================================== *)

Module deleteSubname.

Record DeleteSubnameDataParameters : Type := {
  name : string;
  contract : string;
  asOwner : option bool
}.

Section WithKeccak.

Variable keccak256 : list byte -> list byte.

Definition makeFunctionData {TAccount : Type} (wallet : WalletWithEns TAccount)
    (p : DeleteSubnameDataParameters) : result SimpleTransactionRequest :=
  let name := name p in
  let contract := contract p in
  let asOwner := asOwner p in
  nameType <- getNameType name ;;
  if negb (NameType_eqb nameType eth_subname)
     && negb (NameType_eqb nameType other_subname) then
    throw (UnsupportedNameTypeError
             nameType [eth_subname; other_subname]
             "Cannot delete a name that is not a subname")
  else if contract =? "registry" then
    registryAddress <- getChainContractAddress wallet "ensRegistry" ;;
    if truthy asOwner then
      ret {| to := registryAddress;
             data := encodeFunctionData
               {| abi := registrySetRecordSnippet;
                  functionName := "setRecord";
                  args := [AStr (namehash keccak256 name); AStr EMPTY_ADDRESS;
                           AStr EMPTY_ADDRESS; ABigInt 0] |} |}
    else
      r <- makeLabelNodeAndParent keccak256 name ;;
      ret {| to := registryAddress;
             data := encodeFunctionData
               {| abi := registrySetSubnodeRecordSnippet;
                  functionName := "setSubnodeRecord";
                  args := [AStr (parentNode r); AStr (labelhashId r);
                           AStr EMPTY_ADDRESS; AStr EMPTY_ADDRESS;
                           ABigInt 0] |} |}
  else if contract =? "nameWrapper" then
    nameWrapperAddress <- getChainContractAddress wallet "ensNameWrapper" ;;
    if truthy asOwner then
      ret {| to := nameWrapperAddress;
             data := encodeFunctionData
               {| abi := setRecordSnippet;
                  functionName := "setRecord";
                  args := [AStr (namehash keccak256 name); AStr EMPTY_ADDRESS;
                           AStr EMPTY_ADDRESS; ABigInt 0] |} |}
    else
      r <- makeLabelNodeAndParent keccak256 name ;;
      ret {| to := nameWrapperAddress;
             data := encodeFunctionData
               {| abi := nameWrapperSetSubnodeRecordSnippet;
                  functionName := "setSubnodeRecord";
                  args := [AStr (parentNode r); AStr (label r);
                           AStr EMPTY_ADDRESS; AStr EMPTY_ADDRESS;
                           ABigInt 0; ANum 0; ABigInt 0] |} |}
  else
    throw (InvalidContractTypeError contract ["registry"; "nameWrapper"]).

End WithKeccak.

End deleteSubname.

(* ===================================================================== *)
(** ** registerName.ts *)
(* ===================================================================== *)

Module registerName.

Section WithRegistrationHelpers.

(** utils/registerHelpers.ts is not among the sources: the types of the
    [records] and [fuses] options and [makeRegistrationTuple], which
    builds the argument tuple of [register] and may throw, are parameters
    of the encoder. *)
Variable RecordOptions : Type.
Variable FusesInput : Type.

Record RegistrationParameters : Type := {
  name : string;
  owner : Address;
  duration : Z;
  secret : Hex;
  resolverAddress : option Address;
  records : option RecordOptions;
  reverseRecord : option bool;
  fuses : option FusesInput
}.

Variable makeRegistrationTuple : RegistrationParameters -> result (list AbiArg).

(** [RegisterNameDataReturnType]: a transaction request with a value. *)
Record RegisterNameDataReturnType : Type := {
  to : Address;
  data : CallData;
  value : Z
}.

Definition makeFunctionData {TAccount : Type} (wallet : WalletWithEns TAccount)
    (value : Z) (args : RegistrationParameters)
    : result RegisterNameDataReturnType :=
  let labels := split dot (name args) in
  if negb (length labels =? 2)%nat then
    throw (JsError "Only second level name registration is supported")
  else if negb (match nth_error labels 1 with
                | Some l => l =? "eth"
                | None => false
                end) then
    throw (JsError "Only .eth name registration is supported")
  else
    wrappedLabelLengthCheck (nth 0 labels EmptyString) ;;;
    controllerAddress <-
      getChainContractAddress wallet "ensEthRegistrarController" ;;
    tuple <- makeRegistrationTuple args ;;
    ret {| to := controllerAddress;
           data := encodeFunctionData
             {| abi := registerSnippet;
                functionName := "register";
                args := tuple |};
           value := value |}.

End WithRegistrationHelpers.

End registerName.

(* ===================================================================== *)
(** ** setChildFuses.test.ts: the fuse check of the tests *)
(* ===================================================================== *)

Module setChildFusesTest.

(** ToInt32 of an integral number: the value modulo 2^32, read as a
    signed 32-bit integer. *)
Definition toInt32 (z : Z) : Z := ((z + 2 ^ 31) mod 2 ^ 32 - 2 ^ 31)%Z.

(** The JavaScript [&] on numbers: both operands go through ToInt32 and
    the result is the signed 32-bit integer of the common bits. *)
Definition bitAnd (a b : Z) : Z := Z.land (toInt32 a) (toInt32 b).

(** [const active = (fuses & userSettableFuseEnum[fuse]) > 0]. *)
Definition active (fuses value : Z) : bool := (0 <? bitAnd fuses value)%Z.

(** [expected.includes(fuse)]. *)
Definition includes (expected : list string) (fuse : string) : bool :=
  existsb (String.eqb fuse) expected.

(** One round of the [for ... in] loop of [checkFuses]: an expected fuse
    must be active, any other fuse must not be; the failing [expect] is
    replaced by an [Error] that names the fuse. *)
Definition checkFuse (fuses : Z) (expected : list string)
    (entry : string * Z) : result unit :=
  let fuse := fst entry in
  if includes expected fuse then
    if active fuses (snd entry) then ret tt
    else throw (JsError (fuse ++ " should be true but is false"))
  else if active fuses (snd entry) then
    throw (JsError (fuse ++ " should be false but is true"))
  else ret tt.

(** [for (const key in object) body]: the body runs on the entries in
    enumeration order and the first throw ends the loop. *)
Fixpoint forIn (body : string * Z -> result unit)
    (entries : list (string * Z)) : result unit :=
  match entries with
  | [] => ret tt
  | entry :: rest => body entry ;;; forIn body rest
  end.

Section WithFuseEnum.

(** utils/fuses.ts is not among the sources: [userSettableFuseEnum], the
    fuse names in enumeration order with their values, is a parameter of
    the check. *)
Variable userSettableFuseEnum : list (string * Z).

Definition checkFuses (fuses : Z) (expected : list string) : result unit :=
  forIn (checkFuse fuses expected) userSettableFuseEnum.

End WithFuseEnum.

End setChildFusesTest.

(* ===================================================================== *)
(** ** Example inputs *)
(* ===================================================================== *)

(** A client whose chain deploys the four contracts the encoders address. *)
Definition exampleChain : ChainWithEns :=
  {| contracts := fun id =>
       if id =? "ensRegistry" then
         Some "0x00000000000C2E074eC69A0dFb2997BA6C7d2e1e"
       else if id =? "ensBaseRegistrarImplementation" then
         Some "0x57f1887a8BF19b14fC0dF6Fd9B2acc9Af147eA85"
       else if id =? "ensNameWrapper" then
         Some "0xD4416b13d2b3a9aBae7AcD5D6C2BbDBE25686401"
       else if id =? "ensEthRegistrarController" then
         Some "0x253553366Da8546fC250F225fe3d25d0C782303b"
       else None |}.

Definition exampleWallet : WalletWithEns Account :=
  {| account := {| address := "0x3C44CdDdB6a900fa2b585dd299e03d12FA4293BC" |};
     chain := exampleChain |}.

Definition exampleNewOwner : Address :=
  "0xFe89cc7aBB2C4183683ab71653C4cdc9B02D44b7".

(** The label of more than 255 bytes that getAddr.test.ts resolves: the
    two characters [69] repeated 210 times. *)
Definition longLabel : string :=
  Eval cbv in
    string_of_list_byte (concat (repeat (list_byte_of_string "69") 210)).

(** A stand-in for [makeRegistrationTuple] in the examples: the label
    followed by the owner, the duration and the secret. *)
Definition exampleRegistrationTuple
    (args : registerName.RegistrationParameters unit unit)
    : result (list AbiArg) :=
  ret [AStr (firstLabel (registerName.name unit unit args));
       AStr (registerName.owner unit unit args);
       ABigInt (registerName.duration unit unit args);
       AStr (registerName.secret unit unit args)].

Definition exampleRegistration (n : string)
    : registerName.RegistrationParameters unit unit :=
  {| registerName.name := n;
     registerName.owner := exampleNewOwner;
     registerName.duration := 31536000;
     registerName.secret :=
       "0x0000000000000000000000000000000000000000000000000000000000000001";
     registerName.resolverAddress := None;
     registerName.records := None;
     registerName.reverseRecord := None;
     registerName.fuses := None |}.

(** The fuses a user can set on a wrapped name, with the bit of each:
    the test burns [65537 + 64], that is [CANNOT_UNWRAP],
    [PARENT_CANNOT_CONTROL] and [CANNOT_APPROVE]. *)
Definition exampleFuseEnum : list (string * Z) :=
  [("CANNOT_UNWRAP", 1); ("CANNOT_BURN_FUSES", 2); ("CANNOT_TRANSFER", 4);
   ("CANNOT_SET_RESOLVER", 8); ("CANNOT_SET_TTL", 16);
   ("CANNOT_CREATE_SUBDOMAIN", 32); ("CANNOT_APPROVE", 64);
   ("PARENT_CANNOT_CONTROL", 65536); ("CAN_EXTEND_EXPIRY", 262144)]%Z.

(** A chain on which no ENS contract is deployed. *)
Definition bareWallet : WalletWithEns Account :=
  {| account := {| address := "0x3C44CdDdB6a900fa2b585dd299e03d12FA4293BC" |};
     chain := {| contracts := fun _ => None |} |}.

(** A stand-in for a [makeRegistrationTuple] that rejects its input. *)
Definition failingRegistrationTuple
    (args : registerName.RegistrationParameters unit unit)
    : result (list AbiArg) :=
  throw (JsError "resolver address required").

(** Parameter records over the example owner. *)
Definition exampleTransfer (n contract : string) (reclaim asParent : option bool)
    : transferName.TransferNameDataParameters :=
  {| transferName.name := n;
     transferName.newOwnerAddress := exampleNewOwner;
     transferName.contract := contract;
     transferName.reclaim := reclaim;
     transferName.asParent := asParent |}.

Definition exampleDelete (n contract : string) (asOwner : option bool)
    : deleteSubname.DeleteSubnameDataParameters :=
  {| deleteSubname.name := n;
     deleteSubname.contract := contract;
     deleteSubname.asOwner := asOwner |}.

(* ===================================================================== *)
(** ** Proof automation *)
(* ===================================================================== *)

(** Reduces the record projections, the string comparisons on literals and
    the monadic glue of an encoder applied to a literal contract. *)
Ltac run_encoder :=
  cbv beta iota zeta delta
    [transferName.makeFunctionData
     transferName.name transferName.newOwnerAddress transferName.contract
     transferName.reclaim transferName.asParent
     deleteSubname.makeFunctionData
     deleteSubname.name deleteSubname.contract deleteSubname.asOwner
     String.eqb Ascii.eqb Bool.eqb andb negb ret throw].

(** Case analysis on the steps of an encoder whose outcome is [H]: each
    bound computation and each test is split, and the cases the outcome
    excludes are closed. *)
Ltac invert_encoder H :=
  repeat first
    [ discriminate H
    | match type of H with
      | context [bind ?m _] =>
          let E := fresh "Estep" in
          destruct m eqn:E; cbn [bind ret throw] in H
      | context [if ?b then _ else _] =>
          let E := fresh "Etest" in
          destruct b eqn:E
      end ].

(* ===================================================================== *)
(** * Properties *)
(* ===================================================================== *)

(** ** Strings and hex *)

Lemma split_not_nil (sep : ascii) (s : string) : split sep s <> [].
Proof.
  destruct s as [|c s]; simpl; [discriminate|].
  destruct (Ascii.eqb c sep); [discriminate|].
  destruct (split sep s); discriminate.
Qed.

(** Joining the labels of a name with the separator gives the name back. *)
Lemma join_split (sep : ascii) (s : string) : join sep (split sep s) = s.
Proof.
  induction s as [|c s IH]; [reflexivity|].
  simpl. destruct (Ascii.eqb_spec c sep) as [->|Hne].
  - pose proof (split_not_nil sep s) as Hnil.
    change (join sep (EmptyString :: split sep s))
      with (match split sep s with
            | [] => EmptyString
            | _ :: _ => (EmptyString ++ String sep (join sep (split sep s)))%string
            end).
    destruct (split sep s) as [|l ls]; [contradiction|].
    simpl. now rewrite <- IH.
  - pose proof (split_not_nil sep s) as Hnil.
    destruct (split sep s) as [|l ls]; [contradiction|].
    rewrite <- IH. destruct ls; reflexivity.
Qed.

Lemma hexValue_hexDigit (n : N) :
  (n < 16)%N -> hexValue (hexDigit n) = Some (Z.of_N n).
Proof.
  intros H.
  destruct n as [|p]; [reflexivity|].
  do 4 (destruct p as [p|p|]; try reflexivity; try lia).
Qed.

Lemma parseHexDigits_byteToHex (b : byte) (acc : Z) (rest : string) :
  parseHexDigits acc (byteToHex b rest)
  = parseHexDigits (256 * acc + Z.of_N (Byte.to_N b)) rest.
Proof.
  unfold byteToHex. cbn [parseHexDigits].
  pose proof (Byte.to_N_bounded b) as Hb.
  set (n := Byte.to_N b) in *.
  rewrite !hexValue_hexDigit by
    (try apply N.mod_lt; try apply N.Div0.div_lt_upper_bound; lia).
  f_equal.
  pose proof (N.div_mod n 16 ltac:(lia)) as Hdm.
  lia.
Qed.

Lemma parseHexDigits_bytes (bs : list byte) (acc : Z) :
  parseHexDigits acc (fold_right byteToHex EmptyString bs)
  = Some (fold_left (fun a b => 256 * a + Z.of_N (Byte.to_N b))%Z bs acc).
Proof.
  revert acc. induction bs as [|b bs IH]; intros acc; [reflexivity|].
  cbn [fold_right fold_left]. now rewrite parseHexDigits_byteToHex, IH.
Qed.

(** [BigInt] reads the hex rendering of a non-empty byte sequence back as
    the big-endian integer the bytes denote. *)
Lemma BigInt_bytesToHex (bs : list byte) :
  bs <> [] -> BigInt (bytesToHex bs) = Ok (bytesToZ bs).
Proof.
  intros Hne. destruct bs as [|b bs]; [contradiction|].
  unfold bytesToHex, bytesToZ.
  pose proof (parseHexDigits_bytes (b :: bs) 0) as H.
  remember (fold_right byteToHex EmptyString (b :: bs)) as body eqn:Hbody.
  destruct body as [|c r].
  - cbn [fold_right] in Hbody. unfold byteToHex in Hbody. discriminate.
  - cbn [BigInt]. now rewrite H.
Qed.

(** A byte sequence of length [n] denotes an integer below [256 ^ n]. *)
Lemma bytesToZ_range (bs : list byte) :
  (0 <= bytesToZ bs < 256 ^ Z.of_nat (length bs))%Z.
Proof.
  unfold bytesToZ.
  assert (H : forall acc k,
    (0 <= acc < 256 ^ k)%Z -> (0 <= k)%Z ->
    (0 <= fold_left (fun a b => 256 * a + Z.of_N (Byte.to_N b)) bs acc
       < 256 ^ (k + Z.of_nat (length bs)))%Z).
  { induction bs as [|b bs IH]; intros acc k Hacc Hk.
    - cbn [fold_left length]. now rewrite Z.add_0_r.
    - cbn [fold_left length].
      replace (k + Z.of_nat (S (length bs)))%Z
        with ((k + 1) + Z.of_nat (length bs))%Z by lia.
      apply IH; [|lia].
      pose proof (Byte.to_N_bounded b) as Hb.
      rewrite Z.pow_add_r, Z.pow_1_r by lia. lia. }
  apply (H 0%Z 0%Z); [simpl|]; lia.
Qed.

(** ** Name classification *)

(** The classifier only ever fails with [MalformedNameError]. *)
Lemma getNameType_error (n : string) (e : EnsError) :
  getNameType n = Err e -> e = MalformedNameError n.
Proof.
  unfold getNameType.
  destruct (existsb (String.eqb EmptyString) (split dot n));
    [now intros [= <-]|].
  repeat match goal with
         | |- context [if ?b then _ else _] => destruct b
         end; discriminate.
Qed.

(** A name that classifies as a subname has at least two labels. *)
Lemma getNameType_subname_labels (n : string) (t : NameType) :
  getNameType n = Ok t ->
  t = eth_subname \/ t = other_subname ->
  exists l l' rest, split dot n = l :: l' :: rest.
Proof.
  unfold getNameType. intros H Ht.
  destruct (existsb (String.eqb EmptyString) (split dot n)); [discriminate|].
  destruct (split dot n) as [|l [|l' rest]] eqn:Hs.
  - now destruct (split_not_nil dot n).
  - exfalso. revert H.
    destruct (last [l] EmptyString =? primarySuffix); cbn;
      intros [= <-]; destruct Ht; discriminate.
  - now exists l, l', rest.
Qed.

(** A second-level name under the primary suffix is [label.eth] with a
    non-empty label. *)
Lemma getNameType_eth_2ld_labels (n : string) :
  getNameType n = Ok eth_2ld ->
  exists l, split dot n = [l; primarySuffix] /\ l <> EmptyString.
Proof.
  unfold getNameType. intros H.
  destruct (existsb (String.eqb EmptyString) (split dot n)) eqn:He;
    [discriminate|].
  destruct (split dot n) as [|l [|l' [|l'' rest]]] eqn:Hs.
  - now destruct (split_not_nil dot n).
  - exfalso. revert H.
    destruct (last [l] EmptyString =? primarySuffix); cbn; discriminate.
  - revert H. cbn [last length].
    destruct (String.eqb_spec l' primarySuffix) as [->|Hne]; cbn;
      [intros _|discriminate].
    exists l. split; [reflexivity|].
    intros ->. cbn in He. discriminate.
  - exfalso. revert H.
    destruct (last (l :: l' :: l'' :: rest) EmptyString =? primarySuffix);
      cbn; discriminate.
Qed.

(** A name that classifies as unsupported is a single label. *)
Lemma getNameType_unsupported_labels (n : string) :
  getNameType n = Ok unsupported ->
  exists l, split dot n = [l] /\ l <> primarySuffix /\ l <> EmptyString.
Proof.
  unfold getNameType. intros H.
  destruct (existsb (String.eqb EmptyString) (split dot n)) eqn:He;
    [discriminate|].
  destruct (split dot n) as [|l [|l' [|l'' rest]]] eqn:Hs.
  - now destruct (split_not_nil dot n).
  - exists l. revert H. cbn [last length].
    destruct (String.eqb_spec l primarySuffix) as [->|Hne]; cbn;
      [discriminate|intros _].
    repeat split; [assumption|].
    intros ->. cbn in He. discriminate.
  - exfalso. revert H.
    destruct (last [l; l'] EmptyString =? primarySuffix); cbn; discriminate.
  - exfalso. revert H.
    destruct (last (l :: l' :: l'' :: rest) EmptyString =? primarySuffix);
      cbn; discriminate.
Qed.

(** A name with at least two labels is its first label, a dot and its
    parent name. *)
Lemma firstLabel_parentName (n l l' : string) (rest : list string) :
  split dot n = l :: l' :: rest ->
  firstLabel n = l /\ n = (l ++ String dot (parentName n))%string.
Proof.
  intros Hs. unfold firstLabel, parentName. rewrite Hs. split; [reflexivity|].
  rewrite <- (join_split dot n) at 1. rewrite Hs. reflexivity.
Qed.

(** The labels of the parent name are the labels after the first. *)
Lemma split_parentName (n : string) :
  tl (split dot n) <> [] -> split dot (parentName n) = tl (split dot n).
Proof.
  unfold parentName.
  induction n as [|c n IH]; cbn [split]; [intros H; now destruct H|].
  destruct (Ascii.eqb c dot).
  - cbn [tl]. intros _. now rewrite join_split.
  - pose proof (split_not_nil dot n) as Hnil.
    destruct (split dot n) as [|l0 ls]; [contradiction|].
    cbn [tl] in *. exact IH.
Qed.

(** ** Identifiers *)

Section IdentifierProperties.

Variable keccak256 : list byte -> list byte.
Hypothesis keccak256_length : forall m, length (keccak256 m) = 32%nat.

Lemma labelhashBytes_length (l : string) :
  length (labelhashBytes keccak256 l) = 32%nat.
Proof. apply keccak256_length. Qed.

Lemma namehashBytes_length (n : string) :
  length (namehashBytes keccak256 n) = 32%nat.
Proof.
  unfold namehashBytes.
  destruct (n =? EmptyString); [apply repeat_length|].
  destruct (split dot n); [apply repeat_length|apply keccak256_length].
Qed.

Lemma length_32_not_nil (bs : list byte) : length bs = 32%nat -> bs <> [].
Proof. now intros H ->. Qed.

(** [BigInt(labelhash(label))] is the integer value of the label hash. *)
Lemma BigInt_labelhash (l : string) :
  BigInt (labelhash keccak256 l) = Ok (bytesToZ (labelhashBytes keccak256 l)).
Proof.
  apply BigInt_bytesToHex, length_32_not_nil, labelhashBytes_length.
Qed.

(** [BigInt(namehash(name))] is the integer value of the node hash. *)
Lemma BigInt_namehash (n : string) :
  BigInt (namehash keccak256 n) = Ok (bytesToZ (namehashBytes keccak256 n)).
Proof.
  apply BigInt_bytesToHex, length_32_not_nil, namehashBytes_length.
Qed.

(** Token and unit identifiers fit an unsigned 256-bit integer. *)
Lemma labelhash_uint256 (l : string) :
  (0 <= bytesToZ (labelhashBytes keccak256 l) < 2 ^ 256)%Z.
Proof.
  pose proof (bytesToZ_range (labelhashBytes keccak256 l)) as H.
  rewrite labelhashBytes_length in H. exact H.
Qed.

Lemma namehash_uint256 (n : string) :
  (0 <= bytesToZ (namehashBytes keccak256 n) < 2 ^ 256)%Z.
Proof.
  pose proof (bytesToZ_range (namehashBytes keccak256 n)) as H.
  rewrite namehashBytes_length in H. exact H.
Qed.

End IdentifierProperties.

Section NodeHashProperties.

Variable keccak256 : list byte -> list byte.

(** NodeHash(root) is the all-zero 256-bit value. *)
Lemma namehash_root : namehashBytes keccak256 EmptyString = repeat x00 32.
Proof. reflexivity. Qed.

(** NodeHash(label.rest) = keccak(NodeHash(rest) ++ keccak(label)), for a
    name of at least two labels whose parent is not the root. *)
Lemma namehash_step (n l l' : string) (rest : list string) :
  split dot n = l :: l' :: rest ->
  parentName n <> EmptyString ->
  namehashBytes keccak256 n
  = keccak256 (namehashBytes keccak256 (parentName n)
               ++ keccak256 (stringToBytes l)).
Proof.
  intros Hs Hpn.
  assert (Hn : n <> EmptyString) by (intros ->; discriminate).
  assert (Hp : split dot (parentName n) = l' :: rest).
  { rewrite split_parentName; rewrite Hs; [reflexivity|discriminate]. }
  unfold namehashBytes.
  apply String.eqb_neq in Hn, Hpn. rewrite Hn, Hpn, Hs, Hp. reflexivity.
Qed.

(** For a subname the label and parent helper succeeds and returns the
    first label, its label hash and the node hash of the parent name. *)
Lemma makeLabelNodeAndParent_subname (n : string) (t : NameType) :
  getNameType n = Ok t ->
  t = eth_subname \/ t = other_subname ->
  makeLabelNodeAndParent keccak256 n
  = Ok {| label := firstLabel n;
          labelhashId := labelhash keccak256 (firstLabel n);
          parentNode := namehash keccak256 (parentName n) |}.
Proof.
  intros H Ht.
  destruct (getNameType_subname_labels n t H Ht) as (l & l' & rest & Hs).
  unfold makeLabelNodeAndParent, firstLabel, parentName. now rewrite Hs.
Qed.

End NodeHashProperties.

(* ===================================================================== *)
(** ** The encoders *)
(* ===================================================================== *)

Section TransferProperties.

Variable keccak256 : list byte -> list byte.
Hypothesis keccak256_length : forall m, length (keccak256 m) = 32%nat.

(** C1. Transfer on the registrar (with [asParent] not set) requires the
    name to classify as ['eth-2ld']: any other classification fails with
    [UnsupportedNameTypeError], and a payload is only produced for an
    ['eth-2ld'] name.  With [reclaim = true] the payload targets the
    registrar address and encodes [reclaim(tokenId, newOwner)] where
    [tokenId] is the integer value of the label hash of the first
    label. *)
Theorem transfer_registrar_reclaim :
  forall (wallet : WalletWithEns Account) (n : string) (a : Address)
         (reclaim asParent : option bool),
    truthy asParent = false ->
    let p := {| transferName.name := n;
                transferName.newOwnerAddress := a;
                transferName.contract := "registrar";
                transferName.reclaim := reclaim;
                transferName.asParent := asParent |} in
    (forall t, getNameType n = Ok t -> t <> eth_2ld ->
       transferName.makeFunctionData keccak256 wallet p
       = Err (UnsupportedNameTypeError t [eth_2ld]
                "Only eth-2ld names can be transferred on the registrar contract"))
    /\ (forall tx, transferName.makeFunctionData keccak256 wallet p = Ok tx ->
          getNameType n = Ok eth_2ld)
    /\ (forall registrar,
          getNameType n = Ok eth_2ld ->
          getChainContractAddress wallet "ensBaseRegistrarImplementation"
            = Ok registrar ->
          reclaim = Some true ->
          transferName.makeFunctionData keccak256 wallet p
          = Ok {| to := registrar;
                  data := encodeFunctionData
                    {| abi := reclaimSnippet;
                       functionName := "reclaim";
                       args := [ABigInt (bytesToZ (labelhashBytes keccak256
                                                     (firstLabel n)));
                                AStr a] |} |})
    /\ (forall tx,
          reclaim = Some true ->
          transferName.makeFunctionData keccak256 wallet p = Ok tx ->
          getChainContractAddress wallet "ensBaseRegistrarImplementation"
            = Ok (to tx)
          /\ data tx = encodeFunctionData
               {| abi := reclaimSnippet;
                  functionName := "reclaim";
                  args := [ABigInt (bytesToZ (labelhashBytes keccak256
                                                (firstLabel n)));
                           AStr a] |}).
Proof.
  intros wallet n a reclaim asParent Hp p. subst p.
  run_encoder. rewrite Hp.
  replace (if truthy reclaim then false else false) with false
    by now destruct (truthy reclaim).
  assert (Hok : forall tx,
    (nameType <- getNameType n ;;
     if negb (NameType_eqb nameType eth_2ld) then
       Err (UnsupportedNameTypeError nameType [eth_2ld]
              "Only eth-2ld names can be transferred on the registrar contract")
     else
       tokenId <- BigInt (labelhash keccak256 (nth 0 (split dot n) EmptyString)) ;;
       registrarAddress <-
         getChainContractAddress wallet "ensBaseRegistrarImplementation" ;;
       Ok {| to := registrarAddress;
             data :=
               if truthy reclaim then
                 encodeFunctionData
                   {| abi := reclaimSnippet;
                      functionName := "reclaim";
                      args := [ABigInt tokenId; AStr a] |}
               else
                 encodeFunctionData
                   {| abi := erc721SafeTransferFromSnippet;
                      functionName := "safeTransferFrom";
                      args := [AStr (address (account wallet)); AStr a;
                               ABigInt tokenId] |} |}) = Ok tx ->
    getNameType n = Ok eth_2ld
    /\ getChainContractAddress wallet "ensBaseRegistrarImplementation"
       = Ok (to tx)
    /\ data tx
       = if truthy reclaim then
           encodeFunctionData
             {| abi := reclaimSnippet;
                functionName := "reclaim";
                args := [ABigInt (bytesToZ (labelhashBytes keccak256
                                              (firstLabel n)));
                         AStr a] |}
         else
           encodeFunctionData
             {| abi := erc721SafeTransferFromSnippet;
                functionName := "safeTransferFrom";
                args := [AStr (address (account wallet)); AStr a;
                         ABigInt (bytesToZ (labelhashBytes keccak256
                                              (firstLabel n)))] |}).
  { intros tx.
    destruct (getNameType n) as [t|e]; [|discriminate].
    cbn [bind]. destruct t; cbn [NameType_eqb negb]; try discriminate.
    rewrite (BigInt_labelhash keccak256 keccak256_length). cbn [bind].
    destruct (getChainContractAddress wallet "ensBaseRegistrarImplementation");
      [|discriminate].
    cbn [bind]. intros [= <-]. repeat split. }
  split; [|split; [|split]].
  - intros t Ht Hne. rewrite Ht. cbn [bind].
    destruct t; try reflexivity. now destruct Hne.
  - intros tx Htx. now destruct (Hok tx Htx).
  - intros registrar Ht Haddr ->. rewrite Ht. cbn [bind NameType_eqb negb].
    rewrite (BigInt_labelhash keccak256 keccak256_length). cbn [bind].
    rewrite Haddr. reflexivity.
  - intros tx -> Htx. destruct (Hok tx Htx) as (_ & Haddr & Hdata).
    split; assumption.
Qed.

(** C2. Transfer on the name wrapper with [asParent] not set (and no
    [reclaim], which is only legal on the registrar) emits an ERC-1155
    [safeTransferFrom] payload against the wrapping-contract address: the
    transferred unit identifier is the integer value of the node hash of
    the name, and the quantity is 1. *)
Theorem transfer_nameWrapper_safeTransferFrom :
  forall (wallet : WalletWithEns Account) (n : string) (a : Address)
         (reclaim asParent : option bool) (wrapper : Address),
    truthy reclaim = false ->
    truthy asParent = false ->
    getChainContractAddress wallet "ensNameWrapper" = Ok wrapper ->
    transferName.makeFunctionData keccak256 wallet
      {| transferName.name := n;
         transferName.newOwnerAddress := a;
         transferName.contract := "nameWrapper";
         transferName.reclaim := reclaim;
         transferName.asParent := asParent |}
    = Ok {| to := wrapper;
            data := encodeFunctionData
              {| abi := erc1155SafeTransferFromSnippet;
                 functionName := "safeTransferFrom";
                 args := [AStr (address (account wallet)); AStr a;
                          ABigInt (bytesToZ (namehashBytes keccak256 n));
                          ABigInt 1; AStr "0x"] |} |}.
Proof.
  intros wallet n a reclaim asParent wrapper Hr Hp Haddr.
  run_encoder. rewrite Hr, Hp, Haddr. cbn [bind].
  rewrite (BigInt_namehash keccak256 keccak256_length). reflexivity.
Qed.

(** C4. [reclaim] with any contract other than the registrar fails with
    [AdditionalParameterSpecifiedError], [asParent] with the registrar
    fails with [AdditionalParameterSpecifiedError], and a transfer with
    [asParent] set returns a payload only on the registry or the name
    wrapper. *)
Theorem transfer_additional_parameter_checks :
  forall (wallet : WalletWithEns Account)
         (p : transferName.TransferNameDataParameters),
    (truthy (transferName.reclaim p) = true ->
     transferName.contract p <> "registrar" ->
     transferName.makeFunctionData keccak256 wallet p
     = Err (AdditionalParameterSpecifiedError
              "reclaim" ["name"; "newOwnerAddress"; "contract"]
              "Can't reclaim a name from any contract other than the registrar"))
    /\ (truthy (transferName.asParent p) = true ->
        transferName.contract p = "registrar" ->
        transferName.makeFunctionData keccak256 wallet p
        = Err (AdditionalParameterSpecifiedError
                 "asParent" ["name"; "newOwnerAddress"; "contract"; "reclaim"]
                 "Can't transfer a name as the parent owner on the registrar"))
    /\ (forall tx,
          truthy (transferName.asParent p) = true ->
          transferName.makeFunctionData keccak256 wallet p = Ok tx ->
          transferName.contract p = "registry"
          \/ transferName.contract p = "nameWrapper").
Proof.
  intros wallet [n a c reclaim asParent]. cbn [transferName.reclaim
    transferName.asParent transferName.contract].
  unfold transferName.makeFunctionData.
  cbn [transferName.name transferName.newOwnerAddress transferName.contract
       transferName.reclaim transferName.asParent].
  repeat split.
  - intros Hr Hc. apply String.eqb_neq in Hc. now rewrite Hr, Hc.
  - intros Hp ->. rewrite Hp.
    replace (truthy reclaim && negb ("registrar" =? "registrar")) with false
      by now destruct (truthy reclaim).
    reflexivity.
  - intros tx Hp. rewrite Hp.
    destruct (truthy reclaim && negb (c =? "registrar")); [discriminate|].
    destruct (String.eqb_spec c "registry") as [->|_]; [now left|].
    destruct (String.eqb_spec c "registrar") as [->|_]; [discriminate|].
    destruct (String.eqb_spec c "nameWrapper") as [->|_]; [now right|].
    discriminate.
Qed.

End TransferProperties.

Section DeleteProperties.

Variable keccak256 : list byte -> list byte.
Variable TAccount : Type.
Variable wallet : WalletWithEns TAccount.

(** The name-type check of deleteSubname, case by case. *)
Lemma delete_not_subname (p : deleteSubname.DeleteSubnameDataParameters)
    (t : NameType) :
  getNameType (deleteSubname.name p) = Ok t ->
  t <> eth_subname -> t <> other_subname ->
  deleteSubname.makeFunctionData keccak256 wallet p
  = Err (UnsupportedNameTypeError t [eth_subname; other_subname]
           "Cannot delete a name that is not a subname").
Proof.
  intros Ht H1 H2. unfold deleteSubname.makeFunctionData.
  rewrite Ht. cbn [bind].
  destruct t; try reflexivity; [now destruct H1|now destruct H2].
Qed.

(** Past the name-type check the encoder dispatches on the contract. *)
Lemma delete_subname_dispatch (p : deleteSubname.DeleteSubnameDataParameters)
    (t : NameType) :
  getNameType (deleteSubname.name p) = Ok t ->
  t = eth_subname \/ t = other_subname ->
  deleteSubname.makeFunctionData keccak256 wallet p
  = let n := deleteSubname.name p in
    let r := {| label := firstLabel n;
                labelhashId := labelhash keccak256 (firstLabel n);
                parentNode := namehash keccak256 (parentName n) |} in
    if deleteSubname.contract p =? "registry" then
      registryAddress <- getChainContractAddress wallet "ensRegistry" ;;
      ret {| to := registryAddress;
             data :=
               if truthy (deleteSubname.asOwner p) then
                 encodeFunctionData
                   {| abi := registrySetRecordSnippet;
                      functionName := "setRecord";
                      args := [AStr (namehash keccak256 n); AStr EMPTY_ADDRESS;
                               AStr EMPTY_ADDRESS; ABigInt 0] |}
               else
                 encodeFunctionData
                   {| abi := registrySetSubnodeRecordSnippet;
                      functionName := "setSubnodeRecord";
                      args := [AStr (parentNode r); AStr (labelhashId r);
                               AStr EMPTY_ADDRESS; AStr EMPTY_ADDRESS;
                               ABigInt 0] |} |}
    else if deleteSubname.contract p =? "nameWrapper" then
      nameWrapperAddress <- getChainContractAddress wallet "ensNameWrapper" ;;
      ret {| to := nameWrapperAddress;
             data :=
               if truthy (deleteSubname.asOwner p) then
                 encodeFunctionData
                   {| abi := setRecordSnippet;
                      functionName := "setRecord";
                      args := [AStr (namehash keccak256 n); AStr EMPTY_ADDRESS;
                               AStr EMPTY_ADDRESS; ABigInt 0] |}
               else
                 encodeFunctionData
                   {| abi := nameWrapperSetSubnodeRecordSnippet;
                      functionName := "setSubnodeRecord";
                      args := [AStr (parentNode r); AStr (label r);
                               AStr EMPTY_ADDRESS; AStr EMPTY_ADDRESS;
                               ABigInt 0; ANum 0; ABigInt 0] |} |}
    else
      throw (InvalidContractTypeError (deleteSubname.contract p)
               ["registry"; "nameWrapper"]).
Proof.
  intros Ht Hsub. unfold deleteSubname.makeFunctionData.
  rewrite Ht, (makeLabelNodeAndParent_subname keccak256 _ t Ht Hsub).
  cbn [bind].
  replace (negb (NameType_eqb t eth_subname)
           && negb (NameType_eqb t other_subname)) with false
    by (destruct Hsub; subst t; reflexivity).
  cbv zeta.
  destruct (deleteSubname.contract p =? "registry").
  - destruct (getChainContractAddress wallet "ensRegistry"); [|reflexivity].
    cbn [bind]. now destruct (truthy (deleteSubname.asOwner p)).
  - destruct (deleteSubname.contract p =? "nameWrapper"); [|reflexivity].
    destruct (getChainContractAddress wallet "ensNameWrapper"); [|reflexivity].
    cbn [bind]. now destruct (truthy (deleteSubname.asOwner p)).
Qed.

(** A payload is only produced for a name that classifies as a subname. *)
Lemma delete_payload_subname (p : deleteSubname.DeleteSubnameDataParameters)
    (tx : SimpleTransactionRequest) :
  deleteSubname.makeFunctionData keccak256 wallet p = Ok tx ->
  getNameType (deleteSubname.name p) = Ok eth_subname
  \/ getNameType (deleteSubname.name p) = Ok other_subname.
Proof.
  unfold deleteSubname.makeFunctionData.
  destruct (getNameType (deleteSubname.name p)) as [t|e]; [|discriminate].
  cbn [bind]. destruct t; cbn [NameType_eqb negb andb];
    try discriminate; intros _; [now left|now right].
Qed.

(** C3. For a subname, deleteSubname on the registry targets the registry
    address: with [asOwner = true] it encodes [setRecord] at the node
    hash of the name with zero owner, resolver and ttl; with [asOwner]
    unset it encodes [setSubnodeRecord] at the node hash of the parent
    name and the label hash of the first label, with the same zeroed
    arguments. *)
Theorem delete_registry_payload :
  forall (n : string) (t : NameType) (asOwner : option bool)
         (registry : Address),
    getNameType n = Ok t ->
    t = eth_subname \/ t = other_subname ->
    getChainContractAddress wallet "ensRegistry" = Ok registry ->
    let p := {| deleteSubname.name := n;
                deleteSubname.contract := "registry";
                deleteSubname.asOwner := asOwner |} in
    (asOwner = Some true ->
     deleteSubname.makeFunctionData keccak256 wallet p
     = Ok {| to := registry;
             data := encodeFunctionData
               {| abi := registrySetRecordSnippet;
                  functionName := "setRecord";
                  args := [AStr (namehash keccak256 n); AStr EMPTY_ADDRESS;
                           AStr EMPTY_ADDRESS; ABigInt 0] |} |})
    /\ (truthy asOwner = false ->
        deleteSubname.makeFunctionData keccak256 wallet p
        = Ok {| to := registry;
                data := encodeFunctionData
                  {| abi := registrySetSubnodeRecordSnippet;
                     functionName := "setSubnodeRecord";
                     args := [AStr (namehash keccak256 (parentName n));
                              AStr (labelhash keccak256 (firstLabel n));
                              AStr EMPTY_ADDRESS; AStr EMPTY_ADDRESS;
                              ABigInt 0] |} |}).
Proof.
  intros n t asOwner registry Ht Hsub Haddr p.
  rewrite (delete_subname_dispatch p t Ht Hsub). subst p.
  cbn [deleteSubname.name deleteSubname.contract deleteSubname.asOwner].
  change ("registry" =? "registry") with true. cbv zeta iota.
  rewrite Haddr. cbn [bind ret parentNode labelhashId].
  split; [intros ->|intros ->]; reflexivity.
Qed.

(** C8. For a subname, deleteSubname on the name wrapper targets the
    wrapping-contract address: with [asOwner] unset it encodes the
    wrapper's [setSubnodeRecord] with zeroed owner, resolver and ttl and
    with the fuses and expiry fields both zero; with [asOwner = true] it
    encodes [setRecord] at the node hash of the name. *)
Theorem delete_nameWrapper_payload :
  forall (n : string) (t : NameType) (asOwner : option bool)
         (wrapper : Address),
    getNameType n = Ok t ->
    t = eth_subname \/ t = other_subname ->
    getChainContractAddress wallet "ensNameWrapper" = Ok wrapper ->
    let p := {| deleteSubname.name := n;
                deleteSubname.contract := "nameWrapper";
                deleteSubname.asOwner := asOwner |} in
    (truthy asOwner = false ->
     deleteSubname.makeFunctionData keccak256 wallet p
     = Ok {| to := wrapper;
             data := encodeFunctionData
               {| abi := nameWrapperSetSubnodeRecordSnippet;
                  functionName := "setSubnodeRecord";
                  args := [AStr (namehash keccak256 (parentName n));
                           AStr (firstLabel n);
                           AStr EMPTY_ADDRESS; AStr EMPTY_ADDRESS;
                           ABigInt 0; ANum 0; ABigInt 0] |} |})
    /\ (asOwner = Some true ->
        deleteSubname.makeFunctionData keccak256 wallet p
        = Ok {| to := wrapper;
                data := encodeFunctionData
                  {| abi := setRecordSnippet;
                     functionName := "setRecord";
                     args := [AStr (namehash keccak256 n); AStr EMPTY_ADDRESS;
                              AStr EMPTY_ADDRESS; ABigInt 0] |} |}).
Proof.
  intros n t asOwner wrapper Ht Hsub Haddr p.
  rewrite (delete_subname_dispatch p t Ht Hsub). subst p.
  cbn [deleteSubname.name deleteSubname.contract deleteSubname.asOwner].
  change ("nameWrapper" =? "registry") with false.
  change ("nameWrapper" =? "nameWrapper") with true. cbv zeta iota.
  rewrite Haddr. cbn [bind ret parentNode label].
  split; [intros ->|intros ->]; reflexivity.
Qed.

(** C6. deleteSubname raises [UnsupportedNameTypeError] for a name that
    classifies as second-level, top-level or unsupported, whatever the
    contract, and produces a payload only for a name that classifies as
    ['eth-subname'] or ['other-subname']. *)
Theorem delete_requires_subname :
  forall (p : deleteSubname.DeleteSubnameDataParameters),
    (forall t,
       getNameType (deleteSubname.name p) = Ok t ->
       t = eth_2ld \/ t = eth_tld \/ t = unsupported ->
       deleteSubname.makeFunctionData keccak256 wallet p
       = Err (UnsupportedNameTypeError t [eth_subname; other_subname]
                "Cannot delete a name that is not a subname"))
    /\ (forall tx,
          deleteSubname.makeFunctionData keccak256 wallet p = Ok tx ->
          getNameType (deleteSubname.name p) = Ok eth_subname
          \/ getNameType (deleteSubname.name p) = Ok other_subname).
Proof.
  intros p. split.
  - intros t Ht Hcases. apply delete_not_subname; [assumption| |];
      intros ->; decompose [or] Hcases; discriminate.
  - apply delete_payload_subname.
Qed.

(** C10. The name type is validated before the contract is dispatched
    on: a name that is not a subname fails with
    [UnsupportedNameTypeError] for every contract value, recognised or
    not; [InvalidContractTypeError] is raised only for names that classify
    as subnames, and is raised for them when the contract is neither the
    registry nor the name wrapper. *)
Theorem delete_name_type_checked_first :
  forall (n : string) (contract : string) (asOwner : option bool),
    let p := {| deleteSubname.name := n;
                deleteSubname.contract := contract;
                deleteSubname.asOwner := asOwner |} in
    (forall t,
       getNameType n = Ok t -> t <> eth_subname -> t <> other_subname ->
       deleteSubname.makeFunctionData keccak256 wallet p
       = Err (UnsupportedNameTypeError t [eth_subname; other_subname]
                "Cannot delete a name that is not a subname"))
    /\ (forall c s,
          deleteSubname.makeFunctionData keccak256 wallet p
          = Err (InvalidContractTypeError c s) ->
          getNameType n = Ok eth_subname \/ getNameType n = Ok other_subname)
    /\ (forall t,
          getNameType n = Ok t -> t = eth_subname \/ t = other_subname ->
          contract <> "registry" -> contract <> "nameWrapper" ->
          deleteSubname.makeFunctionData keccak256 wallet p
          = Err (InvalidContractTypeError contract ["registry"; "nameWrapper"])).
Proof.
  intros n contract asOwner p. split; [|split].
  - intros t Ht H1 H2. now apply delete_not_subname.
  - intros c s. unfold deleteSubname.makeFunctionData. subst p.
    cbn [deleteSubname.name].
    destruct (getNameType n) as [t|e] eqn:Ht;
      [|rewrite (getNameType_error n e Ht); discriminate].
    cbn [bind]. destruct t; cbn [NameType_eqb negb andb];
      try discriminate; intros _; [now left|now right].
  - intros t Ht Hsub H1 H2.
    rewrite (delete_subname_dispatch p t Ht Hsub). subst p.
    cbn [deleteSubname.name deleteSubname.contract deleteSubname.asOwner].
    apply String.eqb_neq in H1, H2. now rewrite H1, H2.
Qed.

End DeleteProperties.

Section RegisterProperties.

Variable RecordOptions : Type.
Variable FusesInput : Type.
Variable makeRegistrationTuple :
  registerName.RegistrationParameters RecordOptions FusesInput
  -> result (list AbiArg).
Variable TAccount : Type.
Variable wallet : WalletWithEns TAccount.

(** C7. registerName produces a payload only when the name has exactly
    two labels and the final label is [eth]; any other name raises a
    plain error, and so does a first label of more than 255 bytes,
    which fails with [LabelTooLongError] before the controller address is
    looked up or the registration tuple is built.  A name [label.eth]
    with a label of at most 255 bytes is encoded as a [register] call. *)
Theorem register_requires_eth_2ld_and_label_length :
  forall (value : Z)
         (args : registerName.RegistrationParameters RecordOptions FusesInput),
    let labels := split dot (registerName.name _ _ args) in
    let r := registerName.makeFunctionData
               RecordOptions FusesInput makeRegistrationTuple
               wallet value args in
    (length labels <> 2%nat ->
     r = Err (JsError "Only second level name registration is supported"))
    /\ (length labels = 2%nat -> nth_error labels 1 <> Some "eth" ->
        r = Err (JsError "Only .eth name registration is supported"))
    /\ (forall l,
          labels = [l; "eth"] -> (255 < length (stringToBytes l))%nat ->
          r = Err (LabelTooLongError l))
    /\ (forall tx,
          r = Ok tx ->
          exists l, labels = [l; "eth"]
                    /\ (length (stringToBytes l) <= 255)%nat)
    /\ (forall l controller tuple,
          labels = [l; "eth"] -> (length (stringToBytes l) <= 255)%nat ->
          getChainContractAddress wallet "ensEthRegistrarController"
            = Ok controller ->
          makeRegistrationTuple args = Ok tuple ->
          r = Ok {| registerName.to := controller;
                    registerName.data := encodeFunctionData
                      {| abi := registerSnippet;
                         functionName := "register";
                         args := tuple |};
                    registerName.value := value |}).
Proof.
  intros value args labels r. subst r.
  unfold registerName.makeFunctionData. fold labels.
  split; [|split; [|split; [|split]]].
  - intros Hlen. apply Nat.eqb_neq in Hlen. now rewrite Hlen.
  - intros Hlen Hsuffix. rewrite Hlen. cbn [Nat.eqb negb].
    destruct (nth_error labels 1) as [l'|]; [|reflexivity].
    destruct (String.eqb_spec l' "eth") as [->|_]; [now destruct Hsuffix|].
    reflexivity.
  - intros l -> Hlong. cbn [length Nat.eqb negb nth_error nth].
    change ("eth" =? "eth") with true. cbn [negb].
    unfold wrappedLabelLengthCheck.
    apply Nat.ltb_lt in Hlong. now rewrite Hlong.
  - intros tx.
    destruct labels as [|l [|l' [|l'' rest]]]; try discriminate.
    cbn [length Nat.eqb negb nth_error nth].
    destruct (String.eqb_spec l' "eth") as [->|_]; [|discriminate].
    cbn [negb]. unfold wrappedLabelLengthCheck.
    destruct (Nat.ltb_spec 255 (length (stringToBytes l))) as [_|Hle];
      [discriminate|].
    intros _. exists l. split; [reflexivity|lia].
  - intros l controller tuple -> Hshort Haddr Htuple.
    cbn [length Nat.eqb negb nth_error nth].
    change ("eth" =? "eth") with true. cbn [negb].
    unfold wrappedLabelLengthCheck.
    destruct (Nat.ltb_spec 255 (length (stringToBytes l))) as [Hgt|_]; [lia|].
    cbn [bind ret]. now rewrite Haddr, Htuple.
Qed.

End RegisterProperties.

Section CrossCuttingProperties.

Variable keccak256 : list byte -> list byte.

(** C5, as amended.  For a name that classifies as unsupported,
    deleteSubname fails with [UnsupportedNameTypeError] on every contract
    value, transferName on the registrar returns no payload and fails
    with [UnsupportedNameTypeError] when [asParent] is not set, and
    registerName fails with the plain error for names that are not second
    level; none of them returns a payload.  transferName on the registry
    does not look at the name type: with no flag set it returns the
    [setOwner] payload for the name. *)
Theorem unsupported_name_rejected :
  forall (n : string),
    getNameType n = Ok unsupported ->
    (forall (TAccount : Type) (wallet : WalletWithEns TAccount)
            (contract : string) (asOwner : option bool),
       deleteSubname.makeFunctionData keccak256 wallet
         {| deleteSubname.name := n;
            deleteSubname.contract := contract;
            deleteSubname.asOwner := asOwner |}
       = Err (UnsupportedNameTypeError unsupported [eth_subname; other_subname]
                "Cannot delete a name that is not a subname"))
    /\ (forall (wallet : WalletWithEns Account) (a : Address)
               (reclaim asParent : option bool),
          let p := {| transferName.name := n;
                      transferName.newOwnerAddress := a;
                      transferName.contract := "registrar";
                      transferName.reclaim := reclaim;
                      transferName.asParent := asParent |} in
          (forall tx, transferName.makeFunctionData keccak256 wallet p <> Ok tx)
          /\ (truthy asParent = false ->
              transferName.makeFunctionData keccak256 wallet p
              = Err (UnsupportedNameTypeError unsupported [eth_2ld]
                       "Only eth-2ld names can be transferred on the registrar contract")))
    /\ (forall (RecordOptions FusesInput : Type)
               (makeRegistrationTuple :
                  registerName.RegistrationParameters RecordOptions FusesInput
                  -> result (list AbiArg))
               (TAccount : Type) (wallet : WalletWithEns TAccount) (value : Z)
               (args : registerName.RegistrationParameters
                         RecordOptions FusesInput),
          registerName.name _ _ args = n ->
          registerName.makeFunctionData
            RecordOptions FusesInput makeRegistrationTuple wallet value args
          = Err (JsError "Only second level name registration is supported"))
    /\ (forall (wallet : WalletWithEns Account) (a : Address)
               (reclaim asParent : option bool) (registry : Address),
          truthy reclaim = false -> truthy asParent = false ->
          getChainContractAddress wallet "ensRegistry" = Ok registry ->
          transferName.makeFunctionData keccak256 wallet
            {| transferName.name := n;
               transferName.newOwnerAddress := a;
               transferName.contract := "registry";
               transferName.reclaim := reclaim;
               transferName.asParent := asParent |}
          = Ok {| to := registry;
                  data := encodeFunctionData
                    {| abi := setOwnerSnippet;
                       functionName := "setOwner";
                       args := [AStr (namehash keccak256 n); AStr a] |} |}).
Proof.
  intros n Hn. split; [|split; [|split]].
  - intros TAccount wallet contract asOwner.
    now apply delete_not_subname.
  - intros wallet a reclaim asParent p. subst p.
    run_encoder. rewrite Hn. cbn [bind].
    destruct (truthy reclaim), (truthy asParent);
      (split; [discriminate|intros; try discriminate; reflexivity]).
  - intros RecordOptions FusesInput makeRegistrationTuple TAccount wallet
      value args Hname.
    destruct (getNameType_unsupported_labels n Hn) as (l & Hs & _).
    unfold registerName.makeFunctionData. now rewrite Hname, Hs.
  - intros wallet a reclaim asParent registry Hr Hp Haddr.
    run_encoder. now rewrite Hr, Hp, Haddr.
Qed.

(** C9, as amended.  A contract value that is not a recognised variant
    never yields a payload.  transferName raises
    [InvalidContractTypeError] for it when [reclaim] is not set (with
    [reclaim] set the earlier check raises
    [AdditionalParameterSpecifiedError]); deleteSubname raises
    [InvalidContractTypeError] for it when the name classifies as a
    subname (otherwise the earlier name-type check fails). *)
Theorem unrecognized_contract_rejected :
  (forall (wallet : WalletWithEns Account)
          (p : transferName.TransferNameDataParameters),
     transferName.contract p <> "registry" ->
     transferName.contract p <> "registrar" ->
     transferName.contract p <> "nameWrapper" ->
     (forall tx, transferName.makeFunctionData keccak256 wallet p <> Ok tx)
     /\ (truthy (transferName.reclaim p) = false ->
         transferName.makeFunctionData keccak256 wallet p
         = Err (InvalidContractTypeError (transferName.contract p)
                  ["registry"; "registrar"; "nameWrapper"]))
     /\ (truthy (transferName.reclaim p) = true ->
         transferName.makeFunctionData keccak256 wallet p
         = Err (AdditionalParameterSpecifiedError
                  "reclaim" ["name"; "newOwnerAddress"; "contract"]
                  "Can't reclaim a name from any contract other than the registrar")))
  /\ (forall (TAccount : Type) (wallet : WalletWithEns TAccount)
             (p : deleteSubname.DeleteSubnameDataParameters),
        deleteSubname.contract p <> "registry" ->
        deleteSubname.contract p <> "nameWrapper" ->
        (forall tx, deleteSubname.makeFunctionData keccak256 wallet p <> Ok tx)
        /\ (forall t,
              getNameType (deleteSubname.name p) = Ok t ->
              t = eth_subname \/ t = other_subname ->
              deleteSubname.makeFunctionData keccak256 wallet p
              = Err (InvalidContractTypeError (deleteSubname.contract p)
                       ["registry"; "nameWrapper"]))).
Proof.
  split.
  - intros wallet p H1 H2 H3.
    apply String.eqb_neq in H1, H2, H3.
    unfold transferName.makeFunctionData. rewrite H1, H2, H3.
    cbn [negb]. rewrite andb_true_r.
    destruct (truthy (transferName.reclaim p));
      (split; [discriminate|split; [intros|intros]; try discriminate]);
      reflexivity.
  - intros TAccount wallet p H1 H2.
    assert (Hinvalid : forall t,
      getNameType (deleteSubname.name p) = Ok t ->
      t = eth_subname \/ t = other_subname ->
      deleteSubname.makeFunctionData keccak256 wallet p
      = Err (InvalidContractTypeError (deleteSubname.contract p)
               ["registry"; "nameWrapper"])).
    { intros t Ht Hsub. rewrite (delete_subname_dispatch _ _ _ p t Ht Hsub).
      apply String.eqb_neq in H1, H2. now rewrite H1, H2. }
    split; [|exact Hinvalid].
    intros tx Htx.
    destruct (delete_payload_subname _ _ _ p tx Htx) as [Ht|Ht];
      rewrite (Hinvalid _ Ht) in Htx; try discriminate; auto.
Qed.

End CrossCuttingProperties.

(* ===================================================================== *)
(** ** The reference hash and evaluated examples *)
(* ===================================================================== *)

Lemma Keccak_keccak256_length (m : list byte) :
  length (Keccak.keccak256 m) = 32%nat.
Proof.
  unfold Keccak.keccak256, Keccak.squeeze.
  now rewrite length_map, length_seq.
Qed.

(** Known answers: the hash of the empty string and the label and node
    hashes of [eth]. *)
Example keccak256_empty :
  bytesToHex (Keccak.keccak256 [])
  = "0xc5d2460186f7233c927e7db2dcc703c0e500b653ca82273b7bfad8045d85a470".
Proof. vm_compute. reflexivity. Qed.

Example labelhash_eth :
  labelhash Keccak.keccak256 "eth"
  = "0x4f5b812789fc606be1b3b16908db13fc7a9adf7ca72641f84d75b47069d3d7f0".
Proof. vm_compute. reflexivity. Qed.

Example namehash_eth :
  namehash Keccak.keccak256 "eth"
  = "0x93cdeb708b7545dc668eb9280176169d1c33cfd8ed6f04690a0bcc88a93fc4ae".
Proof. vm_compute. reflexivity. Qed.

Example getNameType_examples :
  getNameType "eth" = Ok eth_tld
  /\ getNameType "example.eth" = Ok eth_2ld
  /\ getNameType "sub.example.eth" = Ok eth_subname
  /\ getNameType "sub.example.com" = Ok other_subname
  /\ getNameType "example" = Ok unsupported
  /\ getNameType "sub..eth" = Err (MalformedNameError "sub..eth")
  /\ getNameType "" = Err (MalformedNameError "").
Proof. repeat split. Qed.

Example parentName_example :
  firstLabel "sub.example.eth" = "sub"
  /\ parentName "sub.example.eth" = "example.eth".
Proof. split; reflexivity. Qed.

Example longLabel_length : length (stringToBytes longLabel) = 420%nat.
Proof. reflexivity. Qed.

Example tokenId_example :
  BigInt (labelhash Keccak.keccak256 "example")
  = Ok 0x6fd43e7cffc31bb581d7421c8698e29aa2bd8e7186a394b85299908b4eb9b175%Z.
Proof. vm_compute. reflexivity. Qed.

(** Transfer of [example.eth] on the registrar with [reclaim = true];
    [sub.example.eth] is refused there. *)
Lemma transfer_registrar_reclaim_witness :
  transferName.makeFunctionData Keccak.keccak256 exampleWallet
    {| transferName.name := "example.eth";
       transferName.newOwnerAddress := exampleNewOwner;
       transferName.contract := "registrar";
       transferName.reclaim := Some true;
       transferName.asParent := None |}
  = Ok {| to := "0x57f1887a8BF19b14fC0dF6Fd9B2acc9Af147eA85";
          data := encodeFunctionData
            {| abi := reclaimSnippet;
               functionName := "reclaim";
               args := [ABigInt (bytesToZ (labelhashBytes Keccak.keccak256
                                             "example"));
                        AStr exampleNewOwner] |} |}
  /\ transferName.makeFunctionData Keccak.keccak256 exampleWallet
       {| transferName.name := "sub.example.eth";
          transferName.newOwnerAddress := exampleNewOwner;
          transferName.contract := "registrar";
          transferName.reclaim := Some true;
          transferName.asParent := None |}
     = Err (UnsupportedNameTypeError eth_subname [eth_2ld]
              "Only eth-2ld names can be transferred on the registrar contract").
Proof.
  split.
  - apply (proj1 (proj2 (proj2
      (transfer_registrar_reclaim Keccak.keccak256 Keccak_keccak256_length
         exampleWallet "example.eth" exampleNewOwner (Some true) None
         eq_refl)))); reflexivity.
  - apply (proj1
      (transfer_registrar_reclaim Keccak.keccak256 Keccak_keccak256_length
         exampleWallet "sub.example.eth" exampleNewOwner (Some true) None
         eq_refl)); [reflexivity|discriminate].
Defined.

(** Transfer of [example.eth] on the name wrapper. *)
Lemma transfer_nameWrapper_safeTransferFrom_witness :
  transferName.makeFunctionData Keccak.keccak256 exampleWallet
    {| transferName.name := "example.eth";
       transferName.newOwnerAddress := exampleNewOwner;
       transferName.contract := "nameWrapper";
       transferName.reclaim := None;
       transferName.asParent := Some false |}
  = Ok {| to := "0xD4416b13d2b3a9aBae7AcD5D6C2BbDBE25686401";
          data := encodeFunctionData
            {| abi := erc1155SafeTransferFromSnippet;
               functionName := "safeTransferFrom";
               args := [AStr "0x3C44CdDdB6a900fa2b585dd299e03d12FA4293BC";
                        AStr exampleNewOwner;
                        ABigInt (bytesToZ (namehashBytes Keccak.keccak256
                                             "example.eth"));
                        ABigInt 1; AStr "0x"] |} |}.
Proof.
  apply (transfer_nameWrapper_safeTransferFrom
           Keccak.keccak256 Keccak_keccak256_length
           exampleWallet "example.eth" exampleNewOwner None (Some false));
    reflexivity.
Defined.

(** Deletion of [sub.example.eth] on the registry, as owner and as parent
    owner. *)
Lemma delete_registry_payload_witness :
  deleteSubname.makeFunctionData Keccak.keccak256 exampleWallet
    {| deleteSubname.name := "sub.example.eth";
       deleteSubname.contract := "registry";
       deleteSubname.asOwner := Some true |}
  = Ok {| to := "0x00000000000C2E074eC69A0dFb2997BA6C7d2e1e";
          data := encodeFunctionData
            {| abi := registrySetRecordSnippet;
               functionName := "setRecord";
               args := [AStr (namehash Keccak.keccak256 "sub.example.eth");
                        AStr EMPTY_ADDRESS; AStr EMPTY_ADDRESS; ABigInt 0] |} |}
  /\ deleteSubname.makeFunctionData Keccak.keccak256 exampleWallet
       {| deleteSubname.name := "sub.example.eth";
          deleteSubname.contract := "registry";
          deleteSubname.asOwner := None |}
     = Ok {| to := "0x00000000000C2E074eC69A0dFb2997BA6C7d2e1e";
             data := encodeFunctionData
               {| abi := registrySetSubnodeRecordSnippet;
                  functionName := "setSubnodeRecord";
                  args := [AStr (namehash Keccak.keccak256 "example.eth");
                           AStr (labelhash Keccak.keccak256 "sub");
                           AStr EMPTY_ADDRESS; AStr EMPTY_ADDRESS;
                           ABigInt 0] |} |}.
Proof.
  split.
  - apply (proj1
      (delete_registry_payload Keccak.keccak256 Account exampleWallet
         "sub.example.eth" eth_subname (Some true)
         "0x00000000000C2E074eC69A0dFb2997BA6C7d2e1e"
         eq_refl (or_introl eq_refl) eq_refl)); reflexivity.
  - apply (proj2
      (delete_registry_payload Keccak.keccak256 Account exampleWallet
         "sub.example.eth" eth_subname None
         "0x00000000000C2E074eC69A0dFb2997BA6C7d2e1e"
         eq_refl (or_introl eq_refl) eq_refl)); reflexivity.
Defined.

(** [reclaim] on the registry and [asParent] on the registrar are both
    refused. *)
Lemma transfer_additional_parameter_checks_witness :
  transferName.makeFunctionData Keccak.keccak256 exampleWallet
    {| transferName.name := "example.eth";
       transferName.newOwnerAddress := exampleNewOwner;
       transferName.contract := "registry";
       transferName.reclaim := Some true;
       transferName.asParent := None |}
  = Err (AdditionalParameterSpecifiedError
           "reclaim" ["name"; "newOwnerAddress"; "contract"]
           "Can't reclaim a name from any contract other than the registrar")
  /\ transferName.makeFunctionData Keccak.keccak256 exampleWallet
       {| transferName.name := "example.eth";
          transferName.newOwnerAddress := exampleNewOwner;
          transferName.contract := "registrar";
          transferName.reclaim := Some true;
          transferName.asParent := Some true |}
     = Err (AdditionalParameterSpecifiedError
              "asParent" ["name"; "newOwnerAddress"; "contract"; "reclaim"]
              "Can't transfer a name as the parent owner on the registrar").
Proof.
  split.
  - apply (proj1 (transfer_additional_parameter_checks
                    Keccak.keccak256 exampleWallet _));
      [reflexivity|discriminate].
  - apply (proj1 (proj2 (transfer_additional_parameter_checks
                           Keccak.keccak256 exampleWallet _)));
      reflexivity.
Defined.

(** C5, the claim as stated fails: [example] classifies as unsupported,
    yet its transfer on the registry returns a [setOwner] payload, and
    its registration fails with a plain error that is neither
    [UnsupportedNameTypeError] nor [MalformedNameError]. *)
Lemma unsupported_name_transfer_registry_payload :
  getNameType "example" = Ok unsupported
  /\ transferName.makeFunctionData Keccak.keccak256 exampleWallet
       {| transferName.name := "example";
          transferName.newOwnerAddress := exampleNewOwner;
          transferName.contract := "registry";
          transferName.reclaim := None;
          transferName.asParent := None |}
     = Ok {| to := "0x00000000000C2E074eC69A0dFb2997BA6C7d2e1e";
             data := encodeFunctionData
               {| abi := setOwnerSnippet;
                  functionName := "setOwner";
                  args := [AStr (namehash Keccak.keccak256 "example");
                           AStr exampleNewOwner] |} |}
  /\ registerName.makeFunctionData unit unit exampleRegistrationTuple
       exampleWallet 0 (exampleRegistration "example")
     = Err (JsError "Only second level name registration is supported").
Proof. repeat split. Qed.

(** The unsupported name [example] is refused by deleteSubname, by
    transferName on the registrar and by registerName. *)
Lemma unsupported_name_rejected_witness :
  deleteSubname.makeFunctionData Keccak.keccak256 exampleWallet
    {| deleteSubname.name := "example";
       deleteSubname.contract := "nameWrapper";
       deleteSubname.asOwner := None |}
  = Err (UnsupportedNameTypeError unsupported [eth_subname; other_subname]
           "Cannot delete a name that is not a subname")
  /\ transferName.makeFunctionData Keccak.keccak256 exampleWallet
       {| transferName.name := "example";
          transferName.newOwnerAddress := exampleNewOwner;
          transferName.contract := "registrar";
          transferName.reclaim := None;
          transferName.asParent := None |}
     = Err (UnsupportedNameTypeError unsupported [eth_2ld]
              "Only eth-2ld names can be transferred on the registrar contract")
  /\ registerName.makeFunctionData unit unit exampleRegistrationTuple
       exampleWallet 0 (exampleRegistration "example")
     = Err (JsError "Only second level name registration is supported").
Proof.
  pose proof (unsupported_name_rejected Keccak.keccak256 "example" eq_refl)
    as (Hdelete & Htransfer & Hregister & _).
  split; [|split].
  - apply Hdelete.
  - apply Htransfer. reflexivity.
  - apply Hregister. reflexivity.
Defined.

(** Second-level, top-level and unsupported names are refused by
    deleteSubname. *)
Lemma delete_requires_subname_witness :
  deleteSubname.makeFunctionData Keccak.keccak256 exampleWallet
    {| deleteSubname.name := "example.eth";
       deleteSubname.contract := "registry";
       deleteSubname.asOwner := None |}
  = Err (UnsupportedNameTypeError eth_2ld [eth_subname; other_subname]
           "Cannot delete a name that is not a subname")
  /\ deleteSubname.makeFunctionData Keccak.keccak256 exampleWallet
       {| deleteSubname.name := "eth";
          deleteSubname.contract := "nameWrapper";
          deleteSubname.asOwner := Some true |}
     = Err (UnsupportedNameTypeError eth_tld [eth_subname; other_subname]
              "Cannot delete a name that is not a subname").
Proof.
  split.
  - apply (proj1 (delete_requires_subname
                    Keccak.keccak256 Account exampleWallet _));
      [reflexivity|now left].
  - apply (proj1 (delete_requires_subname
                    Keccak.keccak256 Account exampleWallet _));
      [reflexivity|now right; left].
Defined.

(** Registration of [example.eth] is encoded; a name whose label is the
    420-byte label of the tests is refused, and so are a subname and a
    name under another suffix. *)
Lemma register_requires_eth_2ld_and_label_length_witness :
  registerName.makeFunctionData unit unit exampleRegistrationTuple
    exampleWallet 1000 (exampleRegistration "example.eth")
  = Ok {| registerName.to := "0x253553366Da8546fC250F225fe3d25d0C782303b";
          registerName.data := encodeFunctionData
            {| abi := registerSnippet;
               functionName := "register";
               args := [AStr "example"; AStr exampleNewOwner;
                        ABigInt 31536000;
                        AStr "0x0000000000000000000000000000000000000000000000000000000000000001"] |};
          registerName.value := 1000 |}
  /\ registerName.makeFunctionData unit unit exampleRegistrationTuple
       exampleWallet 1000 (exampleRegistration (longLabel ++ ".eth"))
     = Err (LabelTooLongError longLabel)
  /\ registerName.makeFunctionData unit unit exampleRegistrationTuple
       exampleWallet 1000 (exampleRegistration "sub.example.eth")
     = Err (JsError "Only second level name registration is supported")
  /\ registerName.makeFunctionData unit unit exampleRegistrationTuple
       exampleWallet 1000 (exampleRegistration "example.com")
     = Err (JsError "Only .eth name registration is supported").
Proof.
  split; [|split; [|split]].
  - apply (proj2 (proj2 (proj2 (proj2
      (register_requires_eth_2ld_and_label_length
         unit unit exampleRegistrationTuple Account exampleWallet
         1000 (exampleRegistration "example.eth")))))
      "example");
      [reflexivity|vm_compute; lia|reflexivity|reflexivity].
  - apply (proj1 (proj2 (proj2
      (register_requires_eth_2ld_and_label_length
         unit unit exampleRegistrationTuple Account exampleWallet
         1000 (exampleRegistration (longLabel ++ ".eth"))))));
      [reflexivity|vm_compute; lia].
  - apply (proj1
      (register_requires_eth_2ld_and_label_length
         unit unit exampleRegistrationTuple Account exampleWallet
         1000 (exampleRegistration "sub.example.eth")));
      discriminate.
  - apply (proj1 (proj2
      (register_requires_eth_2ld_and_label_length
         unit unit exampleRegistrationTuple Account exampleWallet
         1000 (exampleRegistration "example.com"))));
      [reflexivity|discriminate].
Defined.

(** Deletion of [sub.example.eth] on the name wrapper, as parent owner and
    as owner. *)
Lemma delete_nameWrapper_payload_witness :
  deleteSubname.makeFunctionData Keccak.keccak256 exampleWallet
    {| deleteSubname.name := "sub.example.eth";
       deleteSubname.contract := "nameWrapper";
       deleteSubname.asOwner := Some false |}
  = Ok {| to := "0xD4416b13d2b3a9aBae7AcD5D6C2BbDBE25686401";
          data := encodeFunctionData
            {| abi := nameWrapperSetSubnodeRecordSnippet;
               functionName := "setSubnodeRecord";
               args := [AStr (namehash Keccak.keccak256 "example.eth");
                        AStr "sub";
                        AStr EMPTY_ADDRESS; AStr EMPTY_ADDRESS;
                        ABigInt 0; ANum 0; ABigInt 0] |} |}
  /\ deleteSubname.makeFunctionData Keccak.keccak256 exampleWallet
       {| deleteSubname.name := "sub.example.eth";
          deleteSubname.contract := "nameWrapper";
          deleteSubname.asOwner := Some true |}
     = Ok {| to := "0xD4416b13d2b3a9aBae7AcD5D6C2BbDBE25686401";
             data := encodeFunctionData
               {| abi := setRecordSnippet;
                  functionName := "setRecord";
                  args := [AStr (namehash Keccak.keccak256 "sub.example.eth");
                           AStr EMPTY_ADDRESS; AStr EMPTY_ADDRESS;
                           ABigInt 0] |} |}.
Proof.
  split.
  - apply (proj1
      (delete_nameWrapper_payload Keccak.keccak256 Account exampleWallet
         "sub.example.eth" eth_subname (Some false)
         "0xD4416b13d2b3a9aBae7AcD5D6C2BbDBE25686401"
         eq_refl (or_introl eq_refl) eq_refl)); reflexivity.
  - apply (proj2
      (delete_nameWrapper_payload Keccak.keccak256 Account exampleWallet
         "sub.example.eth" eth_subname (Some true)
         "0xD4416b13d2b3a9aBae7AcD5D6C2BbDBE25686401"
         eq_refl (or_introl eq_refl) eq_refl)); reflexivity.
Defined.

(** C9, the claim as stated fails: with the unrecognised contract value
    [resolver], a transfer with [reclaim = true] raises
    [AdditionalParameterSpecifiedError] and the deletion of the
    second-level name [example.eth] raises [UnsupportedNameTypeError];
    neither raises [InvalidContractTypeError]. *)
Lemma unrecognized_contract_other_errors :
  transferName.makeFunctionData Keccak.keccak256 exampleWallet
    {| transferName.name := "example.eth";
       transferName.newOwnerAddress := exampleNewOwner;
       transferName.contract := "resolver";
       transferName.reclaim := Some true;
       transferName.asParent := None |}
  = Err (AdditionalParameterSpecifiedError
           "reclaim" ["name"; "newOwnerAddress"; "contract"]
           "Can't reclaim a name from any contract other than the registrar")
  /\ deleteSubname.makeFunctionData Keccak.keccak256 exampleWallet
       {| deleteSubname.name := "example.eth";
          deleteSubname.contract := "resolver";
          deleteSubname.asOwner := None |}
     = Err (UnsupportedNameTypeError eth_2ld [eth_subname; other_subname]
              "Cannot delete a name that is not a subname").
Proof. split; reflexivity. Qed.

(** With the unrecognised contract value [resolver], a transfer without
    [reclaim] and the deletion of a subname raise
    [InvalidContractTypeError]. *)
Lemma unrecognized_contract_rejected_witness :
  transferName.makeFunctionData Keccak.keccak256 exampleWallet
    {| transferName.name := "example.eth";
       transferName.newOwnerAddress := exampleNewOwner;
       transferName.contract := "resolver";
       transferName.reclaim := None;
       transferName.asParent := Some true |}
  = Err (InvalidContractTypeError "resolver"
           ["registry"; "registrar"; "nameWrapper"])
  /\ deleteSubname.makeFunctionData Keccak.keccak256 exampleWallet
       {| deleteSubname.name := "sub.example.eth";
          deleteSubname.contract := "resolver";
          deleteSubname.asOwner := Some true |}
     = Err (InvalidContractTypeError "resolver" ["registry"; "nameWrapper"]).
Proof.
  pose proof (unrecognized_contract_rejected Keccak.keccak256)
    as (Htransfer & Hdelete).
  split.
  - apply (Htransfer exampleWallet
             {| transferName.name := "example.eth";
                transferName.newOwnerAddress := exampleNewOwner;
                transferName.contract := "resolver";
                transferName.reclaim := None;
                transferName.asParent := Some true |});
      try discriminate; reflexivity.
  - apply (proj2 (Hdelete Account exampleWallet
             {| deleteSubname.name := "sub.example.eth";
                deleteSubname.contract := "resolver";
                deleteSubname.asOwner := Some true |}
             ltac:(discriminate) ltac:(discriminate)) eth_subname);
      [reflexivity|now left].
Defined.

(** The second-level name [example.eth] is refused by deleteSubname with
    [UnsupportedNameTypeError] on an unrecognised contract, where the
    subname [sub.example.eth] gets [InvalidContractTypeError]. *)
Lemma delete_name_type_checked_first_witness :
  deleteSubname.makeFunctionData Keccak.keccak256 exampleWallet
    {| deleteSubname.name := "example.eth";
       deleteSubname.contract := "registrar";
       deleteSubname.asOwner := None |}
  = Err (UnsupportedNameTypeError eth_2ld [eth_subname; other_subname]
           "Cannot delete a name that is not a subname")
  /\ deleteSubname.makeFunctionData Keccak.keccak256 exampleWallet
       {| deleteSubname.name := "sub.example.eth";
          deleteSubname.contract := "registrar";
          deleteSubname.asOwner := None |}
     = Err (InvalidContractTypeError "registrar" ["registry"; "nameWrapper"]).
Proof.
  split.
  - apply (proj1 (delete_name_type_checked_first
                    Keccak.keccak256 Account exampleWallet
                    "example.eth" "registrar" None) eth_2ld);
      [reflexivity|discriminate|discriminate].
  - apply (proj2 (proj2 (delete_name_type_checked_first
                           Keccak.keccak256 Account exampleWallet
                           "sub.example.eth" "registrar" None)) eth_subname);
      [reflexivity|now left|discriminate|discriminate].
Defined.

(* ===================================================================== *)
(** * Further properties of the encoders *)
(* ===================================================================== *)

(** ** transferName: every branch *)

Section TransferBranches.

Variable keccak256 : list byte -> list byte.
Variable wallet : WalletWithEns Account.

(** What a transfer on the registry does once the [reclaim] guard is
    passed. *)
Lemma transfer_registry_eq (n : string) (a : Address)
    (reclaim asParent : option bool) :
  truthy reclaim = false ->
  transferName.makeFunctionData keccak256 wallet
    {| transferName.name := n;
       transferName.newOwnerAddress := a;
       transferName.contract := "registry";
       transferName.reclaim := reclaim;
       transferName.asParent := asParent |}
  = (registryAddress <- getChainContractAddress wallet "ensRegistry" ;;
     if truthy asParent then
       r <- makeLabelNodeAndParent keccak256 n ;;
       ret {| to := registryAddress;
              data := encodeFunctionData
                {| abi := registrySetSubnodeOwnerSnippet;
                   functionName := "setSubnodeOwner";
                   args := [AStr (parentNode r); AStr (labelhashId r);
                            AStr a] |} |}
     else
       ret {| to := registryAddress;
              data := encodeFunctionData
                {| abi := setOwnerSnippet;
                   functionName := "setOwner";
                   args := [AStr (namehash keccak256 n); AStr a] |} |}).
Proof. intros Hr. run_encoder. now rewrite Hr. Qed.

(** What a transfer on the registrar does once the [asParent] guard is
    passed. *)
Lemma transfer_registrar_eq (n : string) (a : Address)
    (reclaim asParent : option bool) :
  truthy asParent = false ->
  transferName.makeFunctionData keccak256 wallet
    {| transferName.name := n;
       transferName.newOwnerAddress := a;
       transferName.contract := "registrar";
       transferName.reclaim := reclaim;
       transferName.asParent := asParent |}
  = (nameType <- getNameType n ;;
     if negb (NameType_eqb nameType eth_2ld) then
       throw (UnsupportedNameTypeError nameType [eth_2ld]
                "Only eth-2ld names can be transferred on the registrar contract")
     else
       tokenId <- BigInt (labelhash keccak256 (firstLabel n)) ;;
       registrarAddress <-
         getChainContractAddress wallet "ensBaseRegistrarImplementation" ;;
       ret {| to := registrarAddress;
              data :=
                if truthy reclaim then
                  encodeFunctionData
                    {| abi := reclaimSnippet;
                       functionName := "reclaim";
                       args := [ABigInt tokenId; AStr a] |}
                else
                  encodeFunctionData
                    {| abi := erc721SafeTransferFromSnippet;
                       functionName := "safeTransferFrom";
                       args := [AStr (address (account wallet)); AStr a;
                                ABigInt tokenId] |} |}).
Proof.
  intros Hp. run_encoder. rewrite Hp.
  now destruct (truthy reclaim).
Qed.

(** What a transfer on the name wrapper does once the [reclaim] guard is
    passed. *)
Lemma transfer_nameWrapper_eq (n : string) (a : Address)
    (reclaim asParent : option bool) :
  truthy reclaim = false ->
  transferName.makeFunctionData keccak256 wallet
    {| transferName.name := n;
       transferName.newOwnerAddress := a;
       transferName.contract := "nameWrapper";
       transferName.reclaim := reclaim;
       transferName.asParent := asParent |}
  = (nameWrapperAddress <- getChainContractAddress wallet "ensNameWrapper" ;;
     if truthy asParent then
       r <- makeLabelNodeAndParent keccak256 n ;;
       ret {| to := nameWrapperAddress;
              data := encodeFunctionData
                {| abi := nameWrapperSetSubnodeOwnerSnippet;
                   functionName := "setSubnodeOwner";
                   args := [AStr (parentNode r); AStr (label r); AStr a;
                            ANum 0; ABigInt 0] |} |}
     else
       unitId <- BigInt (namehash keccak256 n) ;;
       ret {| to := nameWrapperAddress;
              data := encodeFunctionData
                {| abi := erc1155SafeTransferFromSnippet;
                   functionName := "safeTransferFrom";
                   args := [AStr (address (account wallet)); AStr a;
                            ABigInt unitId; ABigInt 1; AStr "0x"] |} |}).
Proof. intros Hr. run_encoder. now rewrite Hr. Qed.

(** The contract and the flags of a transfer that does not fail on a
    guard or in the default case. *)
Lemma transfer_no_guard_error (p : transferName.TransferNameDataParameters) :
  (forall x y z,
     transferName.makeFunctionData keccak256 wallet p
     <> Err (AdditionalParameterSpecifiedError x y z)) ->
  (forall x y,
     transferName.makeFunctionData keccak256 wallet p
     <> Err (InvalidContractTypeError x y)) ->
  (transferName.contract p = "registry"
   /\ truthy (transferName.reclaim p) = false)
  \/ (transferName.contract p = "registrar"
      /\ truthy (transferName.asParent p) = false)
  \/ (transferName.contract p = "nameWrapper"
      /\ truthy (transferName.reclaim p) = false).
Proof.
  destruct p as [n a c reclaim asParent].
  unfold transferName.makeFunctionData.
  cbn [transferName.name transferName.newOwnerAddress transferName.contract
       transferName.reclaim transferName.asParent].
  intros Hguard Hdefault.
  destruct (String.eqb_spec c "registrar") as [->|Hc].
  - right; left. split; [reflexivity|].
    rewrite andb_false_r in Hguard. cbn in Hguard.
    destruct (truthy asParent); [|reflexivity].
    now destruct (Hguard _ _ _ eq_refl).
  - cbn [negb] in Hguard, Hdefault. rewrite andb_true_r in Hguard, Hdefault.
    destruct (truthy reclaim); [now destruct (Hguard _ _ _ eq_refl)|].
    destruct (String.eqb_spec c "registry") as [->|_]; [now left|].
    destruct (String.eqb_spec c "nameWrapper") as [->|_];
      [now right; right|].
    now destruct (Hdefault _ _ eq_refl).
Qed.

End TransferBranches.

Section TransferPayloads.

Variable keccak256 : list byte -> list byte.
Variable wallet : WalletWithEns Account.

(** A transfer that returns a payload passed the guards: its contract is
    one of the three variants, with [reclaim] only on the registrar and
    [asParent] never there. *)
Lemma transfer_ok_cases (p : transferName.TransferNameDataParameters)
    (tx : SimpleTransactionRequest) :
  transferName.makeFunctionData keccak256 wallet p = Ok tx ->
  (transferName.contract p = "registry"
   /\ truthy (transferName.reclaim p) = false)
  \/ (transferName.contract p = "registrar"
      /\ truthy (transferName.asParent p) = false)
  \/ (transferName.contract p = "nameWrapper"
      /\ truthy (transferName.reclaim p) = false).
Proof.
  intros H. apply (transfer_no_guard_error keccak256 wallet);
    intros; rewrite H; discriminate.
Qed.

(** X1. The payload of a transfer is addressed to the contract the
    [contract] parameter names: the registry, the base registrar or the
    name wrapper of the client's chain, and to no other address. *)
Theorem transfer_payload_destination :
  forall (p : transferName.TransferNameDataParameters)
         (tx : SimpleTransactionRequest),
    transferName.makeFunctionData keccak256 wallet p = Ok tx ->
    (transferName.contract p = "registry"
     /\ getChainContractAddress wallet "ensRegistry" = Ok (to tx))
    \/ (transferName.contract p = "registrar"
        /\ getChainContractAddress wallet "ensBaseRegistrarImplementation"
           = Ok (to tx))
    \/ (transferName.contract p = "nameWrapper"
        /\ getChainContractAddress wallet "ensNameWrapper" = Ok (to tx)).
Proof.
  intros p tx H.
  destruct (transfer_ok_cases p tx H) as [[Hc Hf]|[[Hc Hf]|[Hc Hf]]];
    destruct p as [n a c reclaim asParent];
    cbn [transferName.contract transferName.reclaim transferName.asParent]
      in Hc, Hf |- *; subst c.
  - left. split; [reflexivity|].
    rewrite (transfer_registry_eq keccak256 wallet n a _ _ Hf) in H.
    invert_encoder H; injection H as <-; reflexivity.
  - right; left. split; [reflexivity|].
    rewrite (transfer_registrar_eq keccak256 wallet n a _ _ Hf) in H.
    invert_encoder H; injection H as <-; reflexivity.
  - right; right. split; [reflexivity|].
    rewrite (transfer_nameWrapper_eq keccak256 wallet n a _ _ Hf) in H.
    invert_encoder H; injection H as <-; reflexivity.
Qed.

(** X2. Every payload a transfer returns encodes a call of [setOwner],
    [setSubnodeOwner], [reclaim] or [safeTransferFrom] that has the new
    owner's address among its arguments. *)
Theorem transfer_payload_names_new_owner :
  forall (p : transferName.TransferNameDataParameters)
         (tx : SimpleTransactionRequest),
    transferName.makeFunctionData keccak256 wallet p = Ok tx ->
    exists snippet f arguments,
      data tx = encodeFunctionData
                  {| abi := snippet; functionName := f; args := arguments |}
      /\ In f ["setOwner"; "setSubnodeOwner"; "reclaim"; "safeTransferFrom"]
      /\ In (AStr (transferName.newOwnerAddress p)) arguments.
Proof.
  intros p tx H.
  destruct (transfer_ok_cases p tx H) as [[Hc Hf]|[[Hc Hf]|[Hc Hf]]];
    destruct p as [n a c reclaim asParent];
    cbn [transferName.contract transferName.reclaim transferName.asParent
         transferName.newOwnerAddress] in Hc, Hf |- *; subst c.
  - rewrite (transfer_registry_eq keccak256 wallet n a _ _ Hf) in H.
    invert_encoder H; injection H as <-; cbn [data];
      eexists _, _, _; (split; [reflexivity|]); cbn; auto 8.
  - rewrite (transfer_registrar_eq keccak256 wallet n a _ _ Hf) in H.
    invert_encoder H; injection H as <-; cbn [data];
      destruct (truthy reclaim);
      eexists _, _, _; (split; [reflexivity|]); cbn; auto 8.
  - rewrite (transfer_nameWrapper_eq keccak256 wallet n a _ _ Hf) in H.
    invert_encoder H; injection H as <-; cbn [data];
      eexists _, _, _; (split; [reflexivity|]); cbn; auto 8.
Qed.


(** X4. A transfer as parent owner goes through the label and parent
    helper: with its result [r] the registry gets
    [setSubnodeOwner(parentNode, labelhash, newOwner)] and the name
    wrapper gets [setSubnodeOwner(parentNode, label, newOwner, 0, 0)],
    with the raw label and zero fuses and expiry; when the helper throws,
    the transfer throws the same error. *)
Theorem transfer_asParent_payloads :
  forall (n : string) (a : Address) (reclaim asParent : option bool),
    truthy reclaim = false ->
    truthy asParent = true ->
    let transfer := fun contract =>
      transferName.makeFunctionData keccak256 wallet
        {| transferName.name := n;
           transferName.newOwnerAddress := a;
           transferName.contract := contract;
           transferName.reclaim := reclaim;
           transferName.asParent := asParent |} in
    (forall registry,
       getChainContractAddress wallet "ensRegistry" = Ok registry ->
       (forall r, makeLabelNodeAndParent keccak256 n = Ok r ->
          transfer "registry"
          = Ok {| to := registry;
                  data := encodeFunctionData
                    {| abi := registrySetSubnodeOwnerSnippet;
                       functionName := "setSubnodeOwner";
                       args := [AStr (parentNode r); AStr (labelhashId r);
                                AStr a] |} |})
       /\ (forall e, makeLabelNodeAndParent keccak256 n = Err e ->
             transfer "registry" = Err e))
    /\ (forall wrapper,
          getChainContractAddress wallet "ensNameWrapper" = Ok wrapper ->
          (forall r, makeLabelNodeAndParent keccak256 n = Ok r ->
             transfer "nameWrapper"
             = Ok {| to := wrapper;
                     data := encodeFunctionData
                       {| abi := nameWrapperSetSubnodeOwnerSnippet;
                          functionName := "setSubnodeOwner";
                          args := [AStr (parentNode r); AStr (label r);
                                   AStr a; ANum 0; ABigInt 0] |} |})
          /\ (forall e, makeLabelNodeAndParent keccak256 n = Err e ->
                transfer "nameWrapper" = Err e)).
Proof.
  intros n a reclaim asParent Hr Hp transfer. subst transfer. cbv beta.
  split.
  - intros registry Haddr.
    rewrite (transfer_registry_eq keccak256 wallet n a _ _ Hr), Haddr, Hp.
    cbn [bind]. split; intros x Hx; now rewrite Hx.
  - intros wrapper Haddr.
    rewrite (transfer_nameWrapper_eq keccak256 wallet n a _ _ Hr), Haddr, Hp.
    cbn [bind]. split; intros x Hx; now rewrite Hx.
Qed.

End TransferPayloads.

Section TransferIdentifiers.

Variable keccak256 : list byte -> list byte.
Hypothesis keccak256_length : forall m, length (keccak256 m) = 32%nat.
Variable wallet : WalletWithEns Account.

(** X5. On the registrar, without [reclaim], an ['eth-2ld'] name is
    transferred by the ERC-721 [safeTransferFrom(from, to, tokenId)]: the
    holder is the account of the client, the recipient the new owner, and
    the token identifier the integer value of the label hash of the
    first label, the same identifier and destination as with
    [reclaim]. *)
Theorem transfer_registrar_safeTransferFrom :
  forall (n : string) (a : Address) (reclaim asParent : option bool)
         (registrar : Address),
    truthy reclaim = false ->
    truthy asParent = false ->
    getNameType n = Ok eth_2ld ->
    getChainContractAddress wallet "ensBaseRegistrarImplementation"
      = Ok registrar ->
    transferName.makeFunctionData keccak256 wallet
      {| transferName.name := n;
         transferName.newOwnerAddress := a;
         transferName.contract := "registrar";
         transferName.reclaim := reclaim;
         transferName.asParent := asParent |}
    = Ok {| to := registrar;
            data := encodeFunctionData
              {| abi := erc721SafeTransferFromSnippet;
                 functionName := "safeTransferFrom";
                 args := [AStr (address (account wallet)); AStr a;
                          ABigInt (bytesToZ (labelhashBytes keccak256
                                               (firstLabel n)))] |} |}.
Proof.
  intros n a reclaim asParent registrar Hr Hp Ht Haddr.
  rewrite (transfer_registrar_eq keccak256 wallet n a _ _ Hp), Ht.
  cbn [bind NameType_eqb negb].
  rewrite (BigInt_labelhash keccak256 keccak256_length). cbn [bind].
  now rewrite Haddr, Hr.
Qed.

(** X6. When the address lookup of the contract fails, the transfer
    fails with the lookup's error and returns no payload.  On the
    registry and the name wrapper the lookup comes before the name is
    touched, so this holds for every name and either value of
    [asParent]; on the registrar the lookup comes after the name-type
    check, so it holds for ['eth-2ld'] names. *)
Theorem transfer_missing_contract_address :
  forall (n : string) (a : Address) (reclaim asParent : option bool)
         (e : EnsError),
    let transfer := fun contract =>
      transferName.makeFunctionData keccak256 wallet
        {| transferName.name := n;
           transferName.newOwnerAddress := a;
           transferName.contract := contract;
           transferName.reclaim := reclaim;
           transferName.asParent := asParent |} in
    (truthy reclaim = false ->
     getChainContractAddress wallet "ensRegistry" = Err e ->
     transfer "registry" = Err e)
    /\ (truthy reclaim = false ->
        getChainContractAddress wallet "ensNameWrapper" = Err e ->
        transfer "nameWrapper" = Err e)
    /\ (truthy asParent = false ->
        getNameType n = Ok eth_2ld ->
        getChainContractAddress wallet "ensBaseRegistrarImplementation"
          = Err e ->
        transfer "registrar" = Err e).
Proof.
  intros n a reclaim asParent e transfer. subst transfer. cbv beta.
  split; [|split].
  - intros Hr Haddr.
    now rewrite (transfer_registry_eq keccak256 wallet n a _ _ Hr), Haddr.
  - intros Hr Haddr.
    now rewrite (transfer_nameWrapper_eq keccak256 wallet n a _ _ Hr), Haddr.
  - intros Hp Ht Haddr.
    rewrite (transfer_registrar_eq keccak256 wallet n a _ _ Hp), Ht.
    cbn [bind NameType_eqb negb].
    rewrite (BigInt_labelhash keccak256 keccak256_length). cbn [bind].
    now rewrite Haddr.
Qed.

(** X7. Every [bigint] argument of a transfer payload (the token
    identifier on the registrar, the unit identifier and the quantity on
    the name wrapper, the zero expiry) lies in the range of an unsigned
    256-bit integer. *)
Theorem transfer_bigint_arguments_uint256 :
  forall (p : transferName.TransferNameDataParameters)
         (tx : SimpleTransactionRequest)
         (snippet : AbiSnippet) (f : string) (arguments : list AbiArg)
         (z : Z),
    transferName.makeFunctionData keccak256 wallet p = Ok tx ->
    data tx = encodeFunctionData
                {| abi := snippet; functionName := f; args := arguments |} ->
    In (ABigInt z) arguments ->
    (0 <= z < 2 ^ 256)%Z.
Proof.
  intros p tx snippet f arguments z H Hdata Hin.
  assert (Hsmall : forall k, (k = 0 \/ k = 1)%Z -> (0 <= k < 2 ^ 256)%Z).
  { intros k [->| ->]; split; (discriminate || reflexivity). }
  destruct (transfer_ok_cases keccak256 wallet p tx H)
    as [[Hc Hf]|[[Hc Hf]|[Hc Hf]]];
    destruct p as [n a c reclaim asParent];
    cbn [transferName.contract transferName.reclaim transferName.asParent]
      in Hc, Hf; subst c.
  - rewrite (transfer_registry_eq keccak256 wallet n a _ _ Hf) in H.
    invert_encoder H; injection H as <-; cbn [data] in Hdata;
      injection Hdata as <- <- <-; cbn [In] in Hin;
      decompose [or] Hin; try discriminate; contradiction.
  - rewrite (transfer_registrar_eq keccak256 wallet n a _ _ Hf) in H.
    rewrite (BigInt_labelhash keccak256 keccak256_length) in H.
    invert_encoder H; injection H as <-; cbn [data] in Hdata;
      destruct (truthy reclaim);
      injection Hdata as <- <- <-; cbn [In] in Hin;
      decompose [or] Hin; try discriminate; try contradiction;
      match goal with
      | E : ABigInt _ = ABigInt z |- _ => injection E as <-
      end; apply (labelhash_uint256 keccak256 keccak256_length).
  - rewrite (transfer_nameWrapper_eq keccak256 wallet n a _ _ Hf) in H.
    rewrite (BigInt_namehash keccak256 keccak256_length) in H.
    invert_encoder H; injection H as <-; cbn [data] in Hdata;
      injection Hdata as <- <- <-; cbn [In] in Hin;
      decompose [or] Hin; try discriminate; try contradiction;
      match goal with
      | E : ABigInt _ = ABigInt z |- _ => injection E as <-
      end;
      first [ apply (namehash_uint256 keccak256 keccak256_length)
            | apply Hsmall; auto ].
Qed.


End TransferIdentifiers.

(** ** deleteSubname and registerName: payload shape and failure order *)

Section DeleteRegisterPayloads.

Variable keccak256 : list byte -> list byte.
Variable TAccount : Type.
Variable wallet : WalletWithEns TAccount.


(** X10. For a subname, when the address lookup of the chosen contract
    fails, deleteSubname fails with the lookup's error, as owner and as
    parent owner alike: the address is looked up before the label and
    parent helper is called. *)
Theorem delete_missing_contract_address :
  forall (n : string) (t : NameType) (asOwner : option bool) (e : EnsError),
    getNameType n = Ok t ->
    t = eth_subname \/ t = other_subname ->
    let delete := fun contract =>
      deleteSubname.makeFunctionData keccak256 wallet
        {| deleteSubname.name := n;
           deleteSubname.contract := contract;
           deleteSubname.asOwner := asOwner |} in
    (getChainContractAddress wallet "ensRegistry" = Err e ->
     delete "registry" = Err e)
    /\ (getChainContractAddress wallet "ensNameWrapper" = Err e ->
        delete "nameWrapper" = Err e).
Proof.
  intros n t asOwner e Ht Hsub delete. subst delete. cbv beta.
  split; intros Haddr; unfold deleteSubname.makeFunctionData;
    cbn [deleteSubname.name deleteSubname.contract deleteSubname.asOwner];
    rewrite Ht; cbn [bind];
    replace (negb (NameType_eqb t eth_subname)
             && negb (NameType_eqb t other_subname)) with false
      by (destruct Hsub; subst t; reflexivity).
  - change ("registry" =? "registry") with true. cbv iota.
    now rewrite Haddr.
  - change ("nameWrapper" =? "registry") with false.
    change ("nameWrapper" =? "nameWrapper") with true. cbv iota.
    now rewrite Haddr.
Qed.

End DeleteRegisterPayloads.

Section SameSubnode.

Variable keccak256 : list byte -> list byte.
Variable wallet : WalletWithEns Account.

(** X11. Deleting a subname as parent owner and transferring it as
    parent owner address the same subnode of the same contract: on the
    registry both calls start with the same parent node and label hash,
    on the name wrapper with the same parent node and raw label. *)
Theorem delete_transfer_same_subnode :
  forall (n : string) (t : NameType) (a : Address)
         (reclaim asParent asOwner : option bool),
    getNameType n = Ok t ->
    t = eth_subname \/ t = other_subname ->
    truthy reclaim = false ->
    truthy asParent = true ->
    truthy asOwner = false ->
    let transfer := fun contract =>
      transferName.makeFunctionData keccak256 wallet
        {| transferName.name := n;
           transferName.newOwnerAddress := a;
           transferName.contract := contract;
           transferName.reclaim := reclaim;
           transferName.asParent := asParent |} in
    let delete := fun contract =>
      deleteSubname.makeFunctionData keccak256 wallet
        {| deleteSubname.name := n;
           deleteSubname.contract := contract;
           deleteSubname.asOwner := asOwner |} in
    (forall registry,
       getChainContractAddress wallet "ensRegistry" = Ok registry ->
       exists parent labelHash,
         transfer "registry"
         = Ok {| to := registry;
                 data := encodeFunctionData
                   {| abi := registrySetSubnodeOwnerSnippet;
                      functionName := "setSubnodeOwner";
                      args := [parent; labelHash; AStr a] |} |}
         /\ delete "registry"
            = Ok {| to := registry;
                    data := encodeFunctionData
                      {| abi := registrySetSubnodeRecordSnippet;
                         functionName := "setSubnodeRecord";
                         args := [parent; labelHash; AStr EMPTY_ADDRESS;
                                  AStr EMPTY_ADDRESS; ABigInt 0] |} |})
    /\ (forall wrapper,
          getChainContractAddress wallet "ensNameWrapper" = Ok wrapper ->
          exists parent rawLabel,
            transfer "nameWrapper"
            = Ok {| to := wrapper;
                    data := encodeFunctionData
                      {| abi := nameWrapperSetSubnodeOwnerSnippet;
                         functionName := "setSubnodeOwner";
                         args := [parent; rawLabel; AStr a;
                                  ANum 0; ABigInt 0] |} |}
            /\ delete "nameWrapper"
               = Ok {| to := wrapper;
                       data := encodeFunctionData
                         {| abi := nameWrapperSetSubnodeRecordSnippet;
                            functionName := "setSubnodeRecord";
                            args := [parent; rawLabel; AStr EMPTY_ADDRESS;
                                     AStr EMPTY_ADDRESS; ABigInt 0;
                                     ANum 0; ABigInt 0] |} |}).
Proof.
  intros n t a reclaim asParent asOwner Ht Hsub Hr Hp Ho transfer delete.
  subst transfer delete. cbv beta.
  pose proof (makeLabelNodeAndParent_subname keccak256 n t Ht Hsub) as Hhelper.
  split.
  - intros registry Haddr.
    exists (AStr (namehash keccak256 (parentName n))),
           (AStr (labelhash keccak256 (firstLabel n))).
    rewrite (transfer_registry_eq keccak256 wallet n a _ _ Hr).
    rewrite (delete_subname_dispatch keccak256 Account wallet
               {| deleteSubname.name := n;
                  deleteSubname.contract := "registry";
                  deleteSubname.asOwner := asOwner |} t Ht Hsub).
    cbn [deleteSubname.name deleteSubname.contract deleteSubname.asOwner].
    change ("registry" =? "registry") with true. cbv zeta iota.
    rewrite Haddr, Hp, Ho, Hhelper. split; reflexivity.
  - intros wrapper Haddr.
    exists (AStr (namehash keccak256 (parentName n))), (AStr (firstLabel n)).
    rewrite (transfer_nameWrapper_eq keccak256 wallet n a _ _ Hr).
    rewrite (delete_subname_dispatch keccak256 Account wallet
               {| deleteSubname.name := n;
                  deleteSubname.contract := "nameWrapper";
                  deleteSubname.asOwner := asOwner |} t Ht Hsub).
    cbn [deleteSubname.name deleteSubname.contract deleteSubname.asOwner].
    change ("nameWrapper" =? "registry") with false.
    change ("nameWrapper" =? "nameWrapper") with true. cbv zeta iota.
    rewrite Haddr, Hp, Ho, Hhelper. split; reflexivity.
Qed.

End SameSubnode.

Section RegisterOutcome.

Variable RecordOptions : Type.
Variable FusesInput : Type.
Variable makeRegistrationTuple :
  registerName.RegistrationParameters RecordOptions FusesInput
  -> result (list AbiArg).
Variable TAccount : Type.
Variable wallet : WalletWithEns TAccount.

(** X12. For a name [label.eth] whose label has at most 255 bytes,
    registerName fails with the error of the controller-address lookup
    when that fails, whatever the registration tuple would be, and
    otherwise with the error of [makeRegistrationTuple] when that
    throws: the address is looked up first, and no payload is returned in
    either case. *)
Theorem register_failure_order :
  forall (value : Z)
         (args : registerName.RegistrationParameters RecordOptions FusesInput)
         (l : string),
    split dot (registerName.name _ _ args) = [l; "eth"] ->
    (length (stringToBytes l) <= 255)%nat ->
    let r := registerName.makeFunctionData
               RecordOptions FusesInput makeRegistrationTuple
               wallet value args in
    (forall e,
       getChainContractAddress wallet "ensEthRegistrarController" = Err e ->
       r = Err e)
    /\ (forall controller e,
          getChainContractAddress wallet "ensEthRegistrarController"
            = Ok controller ->
          makeRegistrationTuple args = Err e ->
          r = Err e).
Proof.
  intros value args l Hs Hshort r. subst r.
  unfold registerName.makeFunctionData. rewrite Hs.
  cbn [length Nat.eqb negb nth_error nth].
  change ("eth" =? "eth") with true. cbn [negb].
  unfold wrappedLabelLengthCheck.
  destruct (Nat.ltb_spec 255 (length (stringToBytes l))) as [Hgt|_]; [lia|].
  cbn [bind ret]. split.
  - intros e Haddr. now rewrite Haddr.
  - intros controller e Haddr Htuple. now rewrite Haddr, Htuple.
Qed.

End RegisterOutcome.

(** ** checkFuses of setChildFuses.test.ts *)

Section FuseBits.

Import setChildFusesTest.

Local Open Scope Z_scope.

(** ToInt32 keeps the value modulo 2^32 and lands in the signed range. *)
Lemma toInt32_mod (z : Z) : toInt32 z mod 2 ^ 32 = z mod 2 ^ 32.
Proof.
  unfold toInt32. rewrite Zminus_mod_idemp_l.
  f_equal. lia.
Qed.

Lemma toInt32_range (z : Z) : - 2 ^ 31 <= toInt32 z < 2 ^ 31.
Proof.
  unfold toInt32.
  pose proof (Z.mod_pos_bound (z + 2 ^ 31) (2 ^ 32) ltac:(lia)). lia.
Qed.

Lemma toInt32_small (z : Z) : - 2 ^ 31 <= z < 2 ^ 31 -> toInt32 z = z.
Proof.
  intros H. unfold toInt32. rewrite Z.mod_small; lia.
Qed.

Lemma toInt32_testbit (z k : Z) :
  0 <= k < 32 -> Z.testbit (toInt32 z) k = Z.testbit z k.
Proof.
  intros Hk.
  rewrite <- (Z.mod_pow2_bits_low (toInt32 z) 32 k) by lia.
  rewrite <- (Z.mod_pow2_bits_low z 32 k) by lia.
  now rewrite toInt32_mod.
Qed.

Lemma land_pow2 (x k : Z) :
  0 <= k -> Z.land x (2 ^ k) = if Z.testbit x k then 2 ^ k else 0.
Proof.
  intros Hk. apply Z.bits_inj'. intros i Hi.
  rewrite Z.land_spec, Z.pow2_bits_eqb by assumption.
  destruct (Z.eqb_spec k i) as [->|Hne].
  - destruct (Z.testbit x i); cbn [andb].
    + rewrite Z.pow2_bits_eqb by assumption. now rewrite Z.eqb_refl.
    + now rewrite Z.bits_0.
  - rewrite andb_false_r. destruct (Z.testbit x k).
    + rewrite Z.pow2_bits_eqb by assumption.
      symmetry. now apply Z.eqb_neq.
    + now rewrite Z.bits_0.
Qed.

(** X14. For a fuse whose value is the single bit [2^k] with [k < 31],
    the test [(fuses & value) > 0] is true exactly when bit [k] of
    [fuses] is set, for every integer [fuses], also one of 2^31 and
    above; for the value [2^31] the test is never true, since [&]
    yields a signed 32-bit integer. *)
Theorem active_bit_test :
  forall (fuses : Z),
    (forall k, 0 <= k < 31 -> active fuses (2 ^ k) = Z.testbit fuses k)
    /\ active fuses (2 ^ 31) = false.
Proof.
  intros fuses. unfold active, bitAnd. split.
  - intros k Hk.
    assert (Hpow : 0 < 2 ^ k < 2 ^ 31).
    { split; [apply Z.pow_pos_nonneg; lia|].
      apply Z.pow_lt_mono_r; lia. }
    rewrite (toInt32_small (2 ^ k)) by lia.
    rewrite land_pow2, toInt32_testbit by lia.
    destruct (Z.testbit fuses k); [apply Z.ltb_lt; lia|reflexivity].
  - change (toInt32 (2 ^ 31)) with (Z.lnot (Z.ones 31)).
    rewrite <- Z.ldiff_land, Z.ldiff_ones_r by lia.
    rewrite Z.shiftl_mul_pow2, Z.shiftr_div_pow2 by lia.
    apply Z.ltb_ge.
    pose proof (toInt32_range fuses) as Hrange.
    assert (toInt32 fuses / 2 ^ 31 <= 0).
    { apply Z.lt_succ_r. apply Z.div_lt_upper_bound; lia. }
    nia.
Qed.

End FuseBits.

Section CheckFuses.

Import setChildFusesTest.

Variable userSettableFuseEnum : list (string * Z).

(** One round of the loop passes exactly when the fuse is active if and
    only if it is expected. *)
Lemma checkFuse_ok (fuses : Z) (expected : list string) (entry : string * Z) :
  checkFuse fuses expected entry = Ok tt
  <-> active fuses (snd entry) = includes expected (fst entry).
Proof.
  unfold checkFuse.
  destruct (includes expected (fst entry)), (active fuses (snd entry));
    cbn; split; (reflexivity || discriminate).
Qed.

Lemma checkFuse_result (fuses : Z) (expected : list string)
    (entry : string * Z) (u : unit) :
  checkFuse fuses expected entry = Ok u -> checkFuse fuses expected entry = Ok tt.
Proof. now destruct u. Qed.

(** X13. [checkFuses] passes exactly when, for every fuse of the
    enumeration, the fuse is active in [fuses] if and only if the
    expected list includes it. *)
Theorem checkFuses_ok_iff :
  forall (fuses : Z) (expected : list string),
    checkFuses userSettableFuseEnum fuses expected = Ok tt
    <-> Forall (fun entry =>
                  active fuses (snd entry) = includes expected (fst entry))
               userSettableFuseEnum.
Proof.
  intros fuses expected. unfold checkFuses.
  induction userSettableFuseEnum as [|entry rest IH]; cbn [forIn].
  - split; [constructor|reflexivity].
  - split.
    + intros H.
      destruct (checkFuse fuses expected entry) as [[]|e] eqn:He;
        [|discriminate].
      cbn [bind] in H. constructor; [now apply checkFuse_ok|now apply IH].
    + intros H. inversion H as [|x xs Hentry Hrest]; subst.
      apply checkFuse_ok in Hentry. rewrite Hentry. cbn [bind].
      now apply IH.
Qed.

(** X15. When [checkFuses] fails it reports the first fuse of the
    enumeration that disagrees with the expected list: a fuse that is
    expected and not active "should be true but is false", a fuse that
    is active and not expected "should be false but is true". *)
Theorem checkFuses_first_mismatch :
  forall (fuses : Z) (expected : list string)
         (before after : list (string * Z)) (fuse : string) (value : Z),
    userSettableFuseEnum = before ++ (fuse, value) :: after ->
    Forall (fun entry =>
              active fuses (snd entry) = includes expected (fst entry))
           before ->
    active fuses value <> includes expected fuse ->
    checkFuses userSettableFuseEnum fuses expected
    = Err (JsError (fuse ++ (if includes expected fuse
                             then " should be true but is false"
                             else " should be false but is true"))).
Proof.
  intros fuses expected before after fuse value -> Hbefore Hne.
  unfold checkFuses.
  induction before as [|entry rest IH]; cbn [app forIn].
  - unfold checkFuse. cbn [fst snd].
    destruct (includes expected fuse), (active fuses value);
      try reflexivity; now destruct Hne.
  - inversion Hbefore as [|x xs Hentry Hrest]; subst.
    apply checkFuse_ok in Hentry. rewrite Hentry. cbn [bind].
    now apply IH.
Qed.

(** X16. Only the names of the enumeration count: two expected lists that
    include the same fuses of the enumeration get the same outcome, so a
    name the enumeration does not have is ignored and never reported. *)
Theorem checkFuses_ignores_unknown_names :
  forall (fuses : Z) (expected expected' : list string),
    (forall fuse value,
       In (fuse, value) userSettableFuseEnum ->
       includes expected fuse = includes expected' fuse) ->
    checkFuses userSettableFuseEnum fuses expected
    = checkFuses userSettableFuseEnum fuses expected'.
Proof.
  intros fuses expected expected'. unfold checkFuses.
  induction userSettableFuseEnum as [|[fuse value] rest IH];
    intros Hsame; cbn [forIn]; [reflexivity|].
  rewrite IH by (intros f v Hin; apply (Hsame f v); now right).
  unfold checkFuse. cbn [fst snd].
  now rewrite (Hsame fuse value (or_introl eq_refl)).
Qed.

End CheckFuses.

(** ** Evaluated examples of the further properties *)

Lemma transfer_payload_destination_witness :
  exists tx,
    transferName.makeFunctionData Keccak.keccak256 exampleWallet
      (exampleTransfer "sub.example.eth" "nameWrapper" None (Some true))
    = Ok tx
    /\ ((transferName.contract
           (exampleTransfer "sub.example.eth" "nameWrapper" None (Some true))
         = "registry"
         /\ getChainContractAddress exampleWallet "ensRegistry" = Ok (to tx))
        \/ (transferName.contract
              (exampleTransfer "sub.example.eth" "nameWrapper" None (Some true))
            = "registrar"
            /\ getChainContractAddress exampleWallet
                 "ensBaseRegistrarImplementation" = Ok (to tx))
        \/ (transferName.contract
              (exampleTransfer "sub.example.eth" "nameWrapper" None (Some true))
            = "nameWrapper"
            /\ getChainContractAddress exampleWallet "ensNameWrapper"
               = Ok (to tx))).
Proof.
  eexists. split; [reflexivity|].
  apply (transfer_payload_destination Keccak.keccak256 exampleWallet).
  reflexivity.
Defined.

Lemma transfer_payload_names_new_owner_witness :
  exists tx,
    transferName.makeFunctionData Keccak.keccak256 exampleWallet
      (exampleTransfer "sub.example.eth" "registry" None (Some true))
    = Ok tx
    /\ exists snippet f arguments,
         data tx = encodeFunctionData
                     {| abi := snippet; functionName := f; args := arguments |}
         /\ In f ["setOwner"; "setSubnodeOwner"; "reclaim"; "safeTransferFrom"]
         /\ In (AStr exampleNewOwner) arguments.
Proof.
  eexists. split; [reflexivity|].
  apply (transfer_payload_names_new_owner Keccak.keccak256 exampleWallet
           (exampleTransfer "sub.example.eth" "registry" None (Some true))).
  reflexivity.
Defined.


(** [sub.example.eth] is transferred as parent owner on the registry;
    the single label [example] has no parent, and the helper's error is
    the transfer's error on the name wrapper. *)
Lemma transfer_asParent_payloads_witness :
  transferName.makeFunctionData Keccak.keccak256 exampleWallet
    (exampleTransfer "sub.example.eth" "registry" None (Some true))
  = Ok {| to := "0x00000000000C2E074eC69A0dFb2997BA6C7d2e1e";
          data := encodeFunctionData
            {| abi := registrySetSubnodeOwnerSnippet;
               functionName := "setSubnodeOwner";
               args := [AStr (namehash Keccak.keccak256 "example.eth");
                        AStr (labelhash Keccak.keccak256 "sub");
                        AStr exampleNewOwner] |} |}
  /\ transferName.makeFunctionData Keccak.keccak256 exampleWallet
       (exampleTransfer "example" "nameWrapper" None (Some true))
     = Err (MalformedNameError "example").
Proof.
  split.
  - apply (proj1 (proj1
      (transfer_asParent_payloads Keccak.keccak256 exampleWallet
         "sub.example.eth" exampleNewOwner None (Some true) eq_refl eq_refl)
      "0x00000000000C2E074eC69A0dFb2997BA6C7d2e1e" eq_refl)
      {| label := "sub";
         labelhashId := labelhash Keccak.keccak256 "sub";
         parentNode := namehash Keccak.keccak256 "example.eth" |}).
    reflexivity.
  - apply (proj2 (proj2
      (transfer_asParent_payloads Keccak.keccak256 exampleWallet
         "example" exampleNewOwner None (Some true) eq_refl eq_refl)
      "0xD4416b13d2b3a9aBae7AcD5D6C2BbDBE25686401" eq_refl)).
    reflexivity.
Defined.

Lemma transfer_registrar_safeTransferFrom_witness :
  transferName.makeFunctionData Keccak.keccak256 exampleWallet
    (exampleTransfer "example.eth" "registrar" (Some false) None)
  = Ok {| to := "0x57f1887a8BF19b14fC0dF6Fd9B2acc9Af147eA85";
          data := encodeFunctionData
            {| abi := erc721SafeTransferFromSnippet;
               functionName := "safeTransferFrom";
               args := [AStr "0x3C44CdDdB6a900fa2b585dd299e03d12FA4293BC";
                        AStr exampleNewOwner;
                        ABigInt (bytesToZ (labelhashBytes Keccak.keccak256
                                             "example"))] |} |}.
Proof.
  apply (transfer_registrar_safeTransferFrom
           Keccak.keccak256 Keccak_keccak256_length exampleWallet
           "example.eth" exampleNewOwner (Some false) None);
    reflexivity.
Defined.

(** On a chain without ENS contracts every transfer fails in the
    lookup. *)
Lemma transfer_missing_contract_address_witness :
  transferName.makeFunctionData Keccak.keccak256 bareWallet
    (exampleTransfer "example" "registry" None (Some true))
  = Err (UnknownContractError "ensRegistry")
  /\ transferName.makeFunctionData Keccak.keccak256 bareWallet
       (exampleTransfer "example.eth" "nameWrapper" None None)
     = Err (UnknownContractError "ensNameWrapper")
  /\ transferName.makeFunctionData Keccak.keccak256 bareWallet
       (exampleTransfer "example.eth" "registrar" (Some true) None)
     = Err (UnknownContractError "ensBaseRegistrarImplementation").
Proof.
  split; [|split].
  - apply (proj1
      (transfer_missing_contract_address
         Keccak.keccak256 Keccak_keccak256_length bareWallet
         "example" exampleNewOwner None (Some true) _)); reflexivity.
  - apply (proj1 (proj2
      (transfer_missing_contract_address
         Keccak.keccak256 Keccak_keccak256_length bareWallet
         "example.eth" exampleNewOwner None None _))); reflexivity.
  - apply (proj2 (proj2
      (transfer_missing_contract_address
         Keccak.keccak256 Keccak_keccak256_length bareWallet
         "example.eth" exampleNewOwner (Some true) None _))); reflexivity.
Defined.

Lemma transfer_bigint_arguments_uint256_witness :
  (0 <= bytesToZ (namehashBytes Keccak.keccak256 "example.eth") < 2 ^ 256)%Z.
Proof.
  apply (transfer_bigint_arguments_uint256
           Keccak.keccak256 Keccak_keccak256_length exampleWallet
           (exampleTransfer "example.eth" "nameWrapper" None None)
           {| to := "0xD4416b13d2b3a9aBae7AcD5D6C2BbDBE25686401";
              data := encodeFunctionData
                {| abi := erc1155SafeTransferFromSnippet;
                   functionName := "safeTransferFrom";
                   args := [AStr "0x3C44CdDdB6a900fa2b585dd299e03d12FA4293BC";
                            AStr exampleNewOwner;
                            ABigInt (bytesToZ (namehashBytes Keccak.keccak256
                                                 "example.eth"));
                            ABigInt 1; AStr "0x"] |} |}
           erc1155SafeTransferFromSnippet "safeTransferFrom"
           [AStr "0x3C44CdDdB6a900fa2b585dd299e03d12FA4293BC";
            AStr exampleNewOwner;
            ABigInt (bytesToZ (namehashBytes Keccak.keccak256 "example.eth"));
            ABigInt 1; AStr "0x"]).
  - vm_compute. reflexivity.
  - reflexivity.
  - cbn [In]. right; right; left. reflexivity.
Defined.



Lemma delete_missing_contract_address_witness :
  deleteSubname.makeFunctionData Keccak.keccak256 bareWallet
    (exampleDelete "sub.example.eth" "registry" (Some true))
  = Err (UnknownContractError "ensRegistry")
  /\ deleteSubname.makeFunctionData Keccak.keccak256 bareWallet
       (exampleDelete "sub.example.eth" "nameWrapper" None)
     = Err (UnknownContractError "ensNameWrapper").
Proof.
  split.
  - apply (proj1
      (delete_missing_contract_address Keccak.keccak256 Account bareWallet
         "sub.example.eth" eth_subname (Some true) _
         eq_refl (or_introl eq_refl))); reflexivity.
  - apply (proj2
      (delete_missing_contract_address Keccak.keccak256 Account bareWallet
         "sub.example.eth" eth_subname None _
         eq_refl (or_introl eq_refl))); reflexivity.
Defined.

Lemma delete_transfer_same_subnode_witness :
  exists parent labelHash,
    transferName.makeFunctionData Keccak.keccak256 exampleWallet
      (exampleTransfer "sub.example.eth" "registry" None (Some true))
    = Ok {| to := "0x00000000000C2E074eC69A0dFb2997BA6C7d2e1e";
            data := encodeFunctionData
              {| abi := registrySetSubnodeOwnerSnippet;
                 functionName := "setSubnodeOwner";
                 args := [parent; labelHash; AStr exampleNewOwner] |} |}
    /\ deleteSubname.makeFunctionData Keccak.keccak256 exampleWallet
         (exampleDelete "sub.example.eth" "registry" None)
       = Ok {| to := "0x00000000000C2E074eC69A0dFb2997BA6C7d2e1e";
               data := encodeFunctionData
                 {| abi := registrySetSubnodeRecordSnippet;
                    functionName := "setSubnodeRecord";
                    args := [parent; labelHash; AStr EMPTY_ADDRESS;
                             AStr EMPTY_ADDRESS; ABigInt 0] |} |}.
Proof.
  apply (proj1
    (delete_transfer_same_subnode Keccak.keccak256 exampleWallet
       "sub.example.eth" eth_subname exampleNewOwner None (Some true) None
       eq_refl (or_introl eq_refl) eq_refl eq_refl eq_refl)).
  reflexivity.
Defined.

(** The missing controller is reported before the tuple is built, and a
    tuple that cannot be built fails the registration. *)
Lemma register_failure_order_witness :
  registerName.makeFunctionData unit unit failingRegistrationTuple
    bareWallet 1000 (exampleRegistration "example.eth")
  = Err (UnknownContractError "ensEthRegistrarController")
  /\ registerName.makeFunctionData unit unit failingRegistrationTuple
       exampleWallet 1000 (exampleRegistration "example.eth")
     = Err (JsError "resolver address required").
Proof.
  split.
  - apply (proj1
      (register_failure_order unit unit failingRegistrationTuple
         Account bareWallet 1000 (exampleRegistration "example.eth")
         "example" eq_refl ltac:(vm_compute; lia))); reflexivity.
  - apply (proj2
      (register_failure_order unit unit failingRegistrationTuple
         Account exampleWallet 1000 (exampleRegistration "example.eth")
         "example" eq_refl ltac:(vm_compute; lia))
      "0x253553366Da8546fC250F225fe3d25d0C782303b"); reflexivity.
Defined.

(** The check of the test: [65537 + 64] is [CANNOT_UNWRAP],
    [PARENT_CANNOT_CONTROL] and [CANNOT_APPROVE]. *)
Lemma checkFuses_ok_iff_witness :
  setChildFusesTest.checkFuses exampleFuseEnum (65537 + 64)
    ["CANNOT_UNWRAP"; "PARENT_CANNOT_CONTROL"; "CANNOT_APPROVE"]
  = Ok tt.
Proof.
  apply (proj2 (checkFuses_ok_iff exampleFuseEnum (65537 + 64)
                  ["CANNOT_UNWRAP"; "PARENT_CANNOT_CONTROL"; "CANNOT_APPROVE"])).
  repeat constructor.
Defined.

Lemma active_bit_test_witness :
  setChildFusesTest.active (65537 + 64) (2 ^ 16) = Z.testbit (65537 + 64) 16
  /\ setChildFusesTest.active (2 ^ 32 + 2 ^ 31 + 4) (2 ^ 2)
     = Z.testbit (2 ^ 32 + 2 ^ 31 + 4) 2
  /\ setChildFusesTest.active (2 ^ 31) (2 ^ 31) = false.
Proof.
  split; [|split].
  - apply (proj1 (active_bit_test (65537 + 64)) 16%Z). lia.
  - apply (proj1 (active_bit_test (2 ^ 32 + 2 ^ 31 + 4)) 2%Z). lia.
  - apply (proj2 (active_bit_test (2 ^ 31))).
Defined.

(** With only [CANNOT_UNWRAP] burned, the expected [CANNOT_APPROVE] is
    the first fuse that disagrees. *)
Lemma checkFuses_first_mismatch_witness :
  setChildFusesTest.checkFuses exampleFuseEnum 1
    ["CAN_EXTEND_EXPIRY"; "CANNOT_APPROVE"; "CANNOT_UNWRAP"]
  = Err (JsError "CANNOT_APPROVE should be true but is false").
Proof.
  apply (checkFuses_first_mismatch exampleFuseEnum 1%Z
           ["CAN_EXTEND_EXPIRY"; "CANNOT_APPROVE"; "CANNOT_UNWRAP"]
           (firstn 6 exampleFuseEnum) (skipn 7 exampleFuseEnum)
           "CANNOT_APPROVE" 64%Z).
  - reflexivity.
  - repeat constructor.
  - discriminate.
Defined.

(** A name the enumeration does not have changes nothing. *)
Lemma checkFuses_ignores_unknown_names_witness :
  setChildFusesTest.checkFuses exampleFuseEnum (65537 + 64)
    ["CANNOT_UNWRAP"; "PARENT_CANNOT_CONTROL"; "CANNOT_APPROVE"]
  = setChildFusesTest.checkFuses exampleFuseEnum (65537 + 64)
      ["CANNOT_FLY"; "CANNOT_UNWRAP"; "PARENT_CANNOT_CONTROL";
       "CANNOT_APPROVE"].
Proof.
  apply (checkFuses_ignores_unknown_names exampleFuseEnum).
  intros fuse value Hin. cbn [exampleFuseEnum In] in Hin.
  repeat (destruct Hin as [[= <- <-]|Hin]; [reflexivity|]).
  contradiction.
Defined.
